(** * The XOR tutorial notebook ([xor/xor_tutorial.ipynb])

    A shallow embedding of the code cells of the notebook, and the
    properties of its functions.

    - Module [Np] models the numeric kernels ([sigmoid],
      [binary_xentropy]) over numpy's float64 values: every arithmetic
      operation computes the exact real result and rounds it to the
      nearest binary64 number, or to an infinity on overflow.
    - Module [Py] models the notebook's Python functions as computations
      over an explicit interpreter state: the global namespace, the store
      of numpy arrays (arrays are shared by reference) and the console. *)

From Stdlib Require Import ZArith List String Reals Lra Lia.
From Stdlib Require Import Epsilon Classical_Prop.
From stdpp Require Import base option list gmap strings.

#[local] Set Warnings "-register-all".

(** ** Numeric kernels *)

Module Np.

Local Open Scope R_scope.

(** A float64 value: a finite number, an infinity or nan.  The sign of
    zero is not modelled. *)
Inductive npfloat : Type :=
| Fin (r : R)
| PInf
| NInf
| NaN.

Definition finite (x : npfloat) : Prop :=
  match x with Fin _ => True | _ => False end.

(** *** The binary64 format *)

(** The value m * 2^e of the binary64 number with integer significand
    [m] and exponent [e]. *)
Definition binary64_value (m e : Z) : R :=
  IZR (m * 2 ^ (e + 1074)) / IZR (2 ^ 1074).

(** 53 bits of significand; exponents from -1074 (the subnormal
    numbers) to 971. *)
Definition binary64_fields (m e : Z) : Prop :=
  (Z.abs m < 2 ^ 53)%Z /\ (-1074 <= e <= 971)%Z.

(** The finite binary64 numbers, and those that have an even
    significand. *)
Definition F64 (x : R) : Prop :=
  exists m e, binary64_fields m e /\ x = binary64_value m e.

Definition F64_even (x : R) : Prop :=
  exists m e,
    binary64_fields m e /\ Z.even m = true /\ x = binary64_value m e.

(** Rounding to nearest, ties to even: [f] is a binary64 number nearest
    to [x], and the even one where two are equally near. *)
Definition nearest_F64 (x f : R) : Prop :=
  F64 f /\ forall g, F64 g -> Rabs (f - x) <= Rabs (g - x).

Definition rounds_to (x f : R) : Prop :=
  nearest_F64 x f
  /\ (F64_even f \/ forall g, nearest_F64 x g -> ~ F64_even g).

Definition round_nearest (x : R) : R :=
  epsilon (inhabits 0) (rounds_to x).

(** From this magnitude on, half a unit above the largest binary64
    number, a result rounds to an infinity. *)
Definition overflow_threshold : R := IZR (2 ^ 1024 - 2 ^ 970).

(** The float64 result of an operation whose exact result is [x]. *)
Definition rnd (x : R) : npfloat :=
  if Rle_dec overflow_threshold x then PInf
  else if Rle_dec x (- overflow_threshold) then NInf
  else Fin (round_nearest x).

(** *** Arithmetic *)

(** Sign of a real, used by the IEEE rules for products and quotients. *)
Inductive sign : Type := Neg | Zero | Pos.

Definition sgn (r : R) : sign :=
  match total_order_T r 0 with
  | inleft (left _) => Neg
  | inleft (right _) => Zero
  | inright _ => Pos
  end.

(** unary minus (exact) *)
Definition neg (x : npfloat) : npfloat :=
  match x with
  | Fin r => Fin (- r)
  | PInf => NInf
  | NInf => PInf
  | NaN => NaN
  end.

Definition add (x y : npfloat) : npfloat :=
  match x, y with
  | NaN, _ | _, NaN => NaN
  | Fin a, Fin b => rnd (a + b)
  | PInf, NInf | NInf, PInf => NaN
  | PInf, _ | _, PInf => PInf
  | NInf, _ | _, NInf => NInf
  end.

Definition sub (x y : npfloat) : npfloat := add x (neg y).

(** An infinity scaled by the sign of a finite factor. *)
Definition scale_inf (positive_inf : bool) (s : sign) : npfloat :=
  match s with
  | Zero => NaN
  | Pos => if positive_inf then PInf else NInf
  | Neg => if positive_inf then NInf else PInf
  end.

Definition mul (x y : npfloat) : npfloat :=
  match x, y with
  | NaN, _ | _, NaN => NaN
  | Fin a, Fin b => rnd (a * b)
  | Fin a, PInf | PInf, Fin a => scale_inf true (sgn a)
  | Fin a, NInf | NInf, Fin a => scale_inf false (sgn a)
  | PInf, PInf | NInf, NInf => PInf
  | PInf, NInf | NInf, PInf => NInf
  end.

(** numpy division: a zero divisor gives an infinity or nan (with a
    warning), never an exception. *)
Definition div (x y : npfloat) : npfloat :=
  match x, y with
  | NaN, _ | _, NaN => NaN
  | Fin a, Fin b =>
      match sgn b with
      | Zero => scale_inf true (sgn a)
      | _ => rnd (a / b)
      end
  | Fin _, (PInf | NInf) => Fin 0
  | PInf, Fin b => match sgn b with Neg => NInf | _ => PInf end
  | NInf, Fin b => match sgn b with Neg => PInf | _ => NInf end
  | (PInf | NInf), (PInf | NInf) => NaN
  end.

(** [np.exp], taken as correctly rounded: it overflows to [inf] and
    underflows to 0. *)
Definition np_exp (x : npfloat) : npfloat :=
  match x with
  | Fin r => rnd (exp r)
  | PInf => PInf
  | NInf => Fin 0
  | NaN => NaN
  end.

(** [np.log], taken as correctly rounded. *)
Definition np_log (x : npfloat) : npfloat :=
  match x with
  | Fin r =>
      match sgn r with
      | Pos => rnd (ln r)
      | Zero => NInf
      | Neg => NaN
      end
  | PInf => PInf
  | NInf => NaN
  | NaN => NaN
  end.

(** The Python literal [1]. *)
Definition one : npfloat := Fin 1.

(** *** The two kernels *)

(** [def sigmoid(x, deriv=False): return 1 / (1 + np.exp(-x))] *)
Definition sigmoid (x : npfloat) (deriv : bool) : npfloat :=
  div one (add one (np_exp (neg x))).

(** [def binary_xentropy(target, p, deriv=False):
       return -(target * np.log(p) + (1 - target) * np.log(1 - p))] *)
Definition binary_xentropy (target p : npfloat) (deriv : bool) : npfloat :=
  neg (add (mul target (np_log p))
           (mul (sub one target) (np_log (sub one p)))).

(** On an array of floats numpy applies the expression of [sigmoid] to
    every element; a two-dimensional array is a list of rows. *)
Definition sigmoid_array (x : list (list npfloat)) (deriv : bool)
  : list (list npfloat) :=
  map (map (fun e => sigmoid e deriv)) x.

(** *** Vocabulary of the properties *)


(** A value between 0 and 1, bounds included, or nan. *)
Definition unit_or_nan (x : npfloat) : Prop :=
  match x with
  | Fin r => 0 <= r <= 1
  | NaN => True
  | PInf | NInf => False
  end.

(** The order of the floats; nan is comparable to nothing. *)
Definition fle (x y : npfloat) : Prop :=
  match x, y with
  | NaN, _ | _, NaN => False
  | NInf, _ | _, PInf => True
  | Fin a, Fin b => a <= b
  | _, _ => False
  end.

End Np.

(** ** The notebook's Python functions *)

Module Py.

Import Np.

(** *** Values, store and console *)

(** An int or a float. *)
Inductive num : Type :=
| Int (n : Z)
| Float (x : npfloat).

(** Contents of a two-dimensional numpy array: its rows, at least one
    (an array without rows does not occur in the notebook; a list of
    rows cannot hold its number of columns). *)
Definition ndarray : Type := list (list num).

(** Arrays live in the store and are passed around by reference. *)
Definition loc : Type := nat.

Inductive value : Type :=
| VNone
| VNum (x : num)               (* a Python int or float *)
| VNpNum (x : num)             (* a numpy scalar, read out of an array *)
| VTuple (items : list value)
| VList (items : list value)
| VArray (l : loc)             (* a two-dimensional array in the store *)
| VRow (cells : list num).     (* one row read out of such an array *)

Inductive exn : Type :=
| AssertionError (arg : value)
| NameError (name : string)
| TypeError
| ValueError
| IndexError
| ZeroDivisionError
| AttributeError
| OverflowError
| SystemError.                (* a reference that is not in the store *)

Inductive result (A : Type) : Type :=
| Ok (a : A)
| Raise (e : exn).
Arguments Ok {A} a.
Arguments Raise {A} e.

(** Format specifications of the f-strings: [{v}], [{v:06d}], [{v:.06f}]. *)
Inductive fmt_spec : Type :=
| FmtStr
| FmtInt (width : nat)
| FmtFixed (digits : nat).

(** A printed line: literal text and formatted values. *)
Inductive piece : Type :=
| Lit (s : string)
| Hole (spec : fmt_spec) (v : value).

(** The interpreter state: module-level variables bound by the cells
    (imports and the functions themselves are resolved statically), the
    arrays, and the lines printed so far. *)
Record state : Type := State {
  globals : gmap string value;
  store : list ndarray;
  console : list (list piece)
}.

(** A computation may change the state and may raise; what was printed or
    written before an exception stays. *)
Definition M (A : Type) : Type := state -> result A * state.

Definition ret {A} (a : A) : M A := fun s => (Ok a, s).

Definition raise {A} (e : exn) : M A := fun s => (Raise e, s).

Definition bind {A B} (m : M A) (k : A -> M B) : M B :=
  fun s =>
    match m s with
    | (Ok a, s') => k a s'
    | (Raise e, s') => (Raise e, s')
    end.

#[global] Instance M_bind : MBind M := fun A B k m => bind m k.

(** Reading a name that the function neither binds nor receives. *)
Definition lookup_name (name : string) : M value :=
  fun s =>
    match globals s !! name with
    | Some v => (Ok v, s)
    | None => (Raise (NameError name), s)
    end.

(** [print(...)]; its value is [None]. *)
Definition print (line : list piece) : M value :=
  fun s => (Ok VNone, State (globals s) (store s) (console s ++ [line])).

(** [np.array(rows)]: a new array. *)
Definition np_array (rows : ndarray) : M value :=
  fun s =>
    (Ok (VArray (length (store s))),
     State (globals s) (store s ++ [rows]) (console s)).

(** [len(v)] *)
Definition len_of (st : list ndarray) (v : value) : result Z :=
  match v with
  | VTuple items | VList items => Ok (Z.of_nat (length items))
  | VArray l =>
      match st !! l with
      | Some rows => Ok (Z.of_nat (length rows))
      | None => Raise SystemError
      end
  | VRow cells => Ok (Z.of_nat (length cells))
  | VNone | VNum _ | VNpNum _ => Raise TypeError
  end.

Definition py_len (v : value) : M Z := fun s => (len_of (store s) v, s).

(** [iter(v)], run to the end. *)
Definition items_of (st : list ndarray) (v : value) : result (list value) :=
  match v with
  | VTuple items | VList items => Ok items
  | VArray l =>
      match st !! l with
      | Some rows => Ok (map VRow rows)
      | None => Raise SystemError
      end
  | VRow cells => Ok (map VNpNum cells)
  | VNone | VNum _ | VNpNum _ => Raise TypeError
  end.

Definition py_iter (v : value) : M (list value) :=
  fun s => (items_of (store s) v, s).

(** [v[i]] for an int [i]; a negative index counts from the end. *)
Definition nth_item {A} (xs : list A) (i : Z) : result A :=
  let n := Z.of_nat (length xs) in
  let j := if (i <? 0)%Z then (i + n)%Z else i in
  if (j <? 0)%Z then Raise IndexError
  else match xs !! Z.to_nat j with
       | Some x => Ok x
       | None => Raise IndexError
       end.

Definition getitem_of (st : list ndarray) (v : value) (i : Z) : result value :=
  match v with
  | VTuple items | VList items => nth_item items i
  | VArray l =>
      match st !! l with
      | Some rows => nth_item (map VRow rows) i
      | None => Raise SystemError
      end
  | VRow cells => nth_item (map VNpNum cells) i
  | VNpNum _ => Raise IndexError
  | VNone | VNum _ => Raise TypeError
  end.

Definition py_getitem (v : value) (i : Z) : M value :=
  fun s => (getitem_of (store s) v i, s).

(** Whether a Python int converts to a float: from 2^1024 - 2^970 on,
    [float(n)] raises [OverflowError]. *)
Definition fits_float (n : Z) : bool :=
  (Z.abs n <? 2 ^ 1024 - 2 ^ 970)%Z.

(** [format(v, spec)].  The fixed-point format converts a Python int to
    a float first; a numpy int is a 64-bit number and always converts. *)
Definition py_format (spec : fmt_spec) (v : value) : M piece :=
  match spec, v with
  | FmtStr, _ => ret (Hole spec v)
  | FmtInt _, (VNum (Int _) | VNpNum (Int _)) => ret (Hole spec v)
  | FmtInt _, (VNum (Float _) | VNpNum (Float _)) => raise ValueError
  | FmtFixed _, VNum (Int n) =>
      if fits_float n then ret (Hole spec v) else raise OverflowError
  | FmtFixed _, (VNum (Float _) | VNpNum _) => ret (Hole spec v)
  | _, _ => raise TypeError
  end.

(** [for x in xs: body] *)
Fixpoint for_each {A} (xs : list A) (body : A -> M unit) : M unit :=
  match xs with
  | [] => ret tt
  | x :: rest => body x;; for_each rest body
  end.

(** [for x in v: body] for a value that may or may not be iterable. *)
Definition py_for (v : value) (body : value -> M unit) : M unit :=
  items ← py_iter v; for_each items body.

(** [[f(x) for x in xs]] *)
Fixpoint map_each {A B} (xs : list A) (f : A -> M B) : M (list B) :=
  match xs with
  | [] => ret []
  | x :: rest =>
      y ← f x;
      ys ← map_each rest f;
      ret (y :: ys)
  end.

(** [v.shape]: arrays and numpy scalars have one, other values do not.
    The number of columns is read off the first row. *)
Definition shape_of (st : list ndarray) (v : value) : result value :=
  let dim (n : nat) := VNum (Int (Z.of_nat n)) in
  match v with
  | VArray l =>
      match st !! l with
      | Some rows =>
          Ok (VTuple [dim (length rows); dim (length (default [] (head rows)))])
      | None => Raise SystemError
      end
  | VRow cells => Ok (VTuple [dim (length cells)])
  | VNpNum _ => Ok (VTuple [])
  | VNone | VNum _ | VTuple _ | VList _ => Raise AttributeError
  end.

Definition py_shape (v : value) : M value :=
  fun s => (shape_of (store s) v, s).

(** [range(n)] *)
Definition py_range (n : Z) : list Z := seqZ 0 n.

(** [a // b] and [a % b] on ints: both round towards minus infinity. *)
Definition py_floordiv (a b : Z) : M Z :=
  if (b =? 0)%Z then raise ZeroDivisionError else ret (a / b)%Z.

Definition py_mod (a b : Z) : M Z :=
  if (b =? 0)%Z then raise ZeroDivisionError else ret (a mod b)%Z.

(** [a, b = v] *)
Definition py_unpack2 (v : value) : M (value * value) :=
  items ← py_iter v;
  match items with
  | [a; b] => ret (a, b)
  | _ => raise ValueError
  end.

(** [a, b, c = v] *)
Definition py_unpack3 (v : value) : M (value * value * value) :=
  items ← py_iter v;
  match items with
  | [a; b; c] => ret (a, b, c)
  | _ => raise ValueError
  end.

(** *** The code cells *)

(** [def generate_data():
       bitpairs = np.array([[1,0], [0,1], [0,0], [1,1]])
       xor_labels = np.array([[1], [1], [0], [0]])
       return bitpairs, xor_labels] *)
Definition generate_data : M value :=
  bitpairs ← np_array [[Int 1; Int 0];
                        [Int 0; Int 1];
                        [Int 0; Int 0];
                        [Int 1; Int 1]];
  xor_labels ← np_array [[Int 1];
                          [Int 1];
                          [Int 0];
                          [Int 0]];
  ret (VTuple [bitpairs; xor_labels]).

(** [def get_parameters(): return w, b]

    Neither name is bound in the function. *)
Definition get_parameters : M value :=
  w ← lookup_name "w";
  b ← lookup_name "b";
  ret (VTuple [w; b]).

(** [def print_shapes(ls, name):
       print(f"{name}: {[l.shape for l in ls]}")] *)
Definition print_shapes (ls name : value) : M value :=
  h_name ← py_format FmtStr name;
  items ← py_iter ls;
  shapes ← map_each items py_shape;
  h_shapes ← py_format FmtStr (VList shapes);
  print [h_name; Lit ": "; h_shapes];;
  ret VNone.

(** [def shuffle_and_batch(X, Y, batch_size):
       assert batch_size <= len(X), print("Batch size must be ...")
       # Return a generator for the data]

    The message of the assertion is the value of the [print] call, which
    runs only when the assertion fails.  The body ends after the comment,
    so the call returns [None]. *)
Definition shuffle_and_batch (X Y : value) (batch_size : Z) : M value :=
  n ← py_len X;
  (if (batch_size <=? n)%Z then ret tt
   else
     msg ← print [Lit "Batch size must be smaller than the dataset size"];
     raise (AssertionError msg));;
  ret VNone.

(** [def feedforward(x, weights, biases):
       return zs, activations, d_activations] *)
Definition feedforward (x weights biases : value) : M value :=
  zs ← lookup_name "zs";
  activations ← lookup_name "activations";
  d_activations ← lookup_name "d_activations";
  ret (VTuple [zs; activations; d_activations]).

(** [def backprop(x, y, weights, biases): return gradw, gradb] *)
Definition backprop (x y weights biases : value) : M value :=
  gradw ← lookup_name "gradw";
  gradb ← lookup_name "gradb";
  ret (VTuple [gradw; gradb]).

(** [def SGD(X, Y, batch_size, lr, weights, biases):]  The body is the
    docstring alone. *)
Definition SGD (X Y : value) (batch_size : Z) (lr weights biases : value)
  : M value :=
  ret VNone.

(** [def train(dataset, weights, biases, epochs=100, lr=1e-3, batch_size=4):
       losses = []
       for epoch in range(epochs):
           if epoch % (epochs // 10) == 0:
               print(f"Running epoch {epoch:06d} - loss: {epoch_loss:.06f}")
       return losses] *)
Definition train (dataset weights biases : value) (epochs : Z) (lr : value)
    (batch_size : Z) : M value :=
  let losses : list value := [] in
  for_each (py_range epochs) (fun epoch =>
    step ← py_floordiv epochs 10;
    r ← py_mod epoch step;
    if (r =? 0)%Z then
      h_epoch ← py_format (FmtInt 6) (VNum (Int epoch));
      epoch_loss ← lookup_name "epoch_loss";
      h_loss ← py_format (FmtFixed 6) epoch_loss;
      print [Lit "Running epoch "; h_epoch; Lit " - loss: "; h_loss];;
      ret tt
    else ret tt);;
  ret (VList losses).

(** The default arguments of [train]. *)
Definition default_epochs : Z := 100.
Definition default_lr : value := VNum (Float (rnd (1 / 1000))).
Definition default_batch_size : Z := 4.

(** [def predict(dataset, weights, biases):
       X, _ = dataset
       _, activations, _ = feedforward(X, weights, biases)
       print("Truth table predictions")
       print("_______________________")
       for x, pred in zip(X, activations[-1]):
           print(f"{x[0]} {x[1]} | {pred[0]:.14f}")] *)
Definition predict (dataset weights biases : value) : M value :=
  '(X, _) ← py_unpack2 dataset;
  out ← feedforward X weights biases;
  '(_, activations, _) ← py_unpack3 out;
  print [Lit "Truth table predictions"];;
  print [Lit "_______________________"];;
  last ← py_getitem activations (-1);
  xs ← py_iter X;
  preds ← py_iter last;
  for_each (zip xs preds) (fun '(x, pred) =>
    x0 ← py_getitem x 0;
    h0 ← py_format FmtStr x0;
    x1 ← py_getitem x 1;
    h1 ← py_format FmtStr x1;
    p0 ← py_getitem pred 0;
    h2 ← py_format (FmtFixed 14) p0;
    print [h0; Lit " "; h1; Lit " | "; h2];;
    ret tt);;
  ret VNone.

(** The notebook as shipped binds no module-level variable: its cells only
    import, seed the generator and define functions. *)
Definition shipped (st : list ndarray) (out : list (list piece)) : state :=
  State ∅ st out.

(** *** Vocabulary of the properties *)

(** The one designed error of the notebook is the failed assertion. *)
Definition raises_assertion {A} (r : result A) : Prop :=
  match r with
  | Raise (AssertionError _) => True
  | _ => False
  end.

Definition no_assert {A} (m : M A) : Prop :=
  forall s, ~ raises_assertion (m s).1.

(** A computation that leaves every array and every variable as it is (it
    may still print). *)
Definition keeps_arrays {A} (m : M A) : Prop :=
  forall s, store (m s).2 = store s /\ globals (m s).2 = globals s.

(** The truth table of the notebook's first cell: bits and output. *)
Definition xor_bitpairs : ndarray :=
  [[Int 1; Int 0]; [Int 0; Int 1]; [Int 0; Int 0]; [Int 1; Int 1]].

Definition xor_outputs : ndarray :=
  [[Int 1]; [Int 1]; [Int 0]; [Int 0]].

(** Exclusive or of a pair of bits, as a one-element row. *)
Definition xor_row (row : list num) : list num :=
  match row with
  | [Int a; Int b] => [Int (Z.lxor a b)]
  | _ => []
  end.

Definition is_bit (x : num) : Prop := x = Int 0 \/ x = Int 1.

(** The state after one call of [generate_data] in a new notebook. *)
Definition data_state : state := State ∅ [xor_bitpairs; xor_outputs] [].

(** The state with some more lines on the console. *)
Definition with_console (s : state) (lines : list (list piece)) : state :=
  State (globals s) (store s) (console s ++ lines).

(** A number that the fixed-point format prints: a float, a numpy
    number, or a Python int that converts to a float. *)
Definition prints_fixed (v : value) : Prop :=
  match v with
  | VNum (Int n) => fits_float n = true
  | VNum (Float _) | VNpNum _ => True
  | _ => False
  end.

(** Rows that form a matrix: at least one row, all of one length. *)
Definition is_matrix (rows : ndarray) : Prop :=
  rows <> []
  /\ Forall (fun row => length row = length (default [] (head rows))) rows.

(** The line that [train] prints for an epoch. *)
Definition progress_line (loss : value) (epoch : Z) : list piece :=
  [Lit "Running epoch "; Hole (FmtInt 6) (VNum (Int epoch));
   Lit " - loss: "; Hole (FmtFixed 6) loss].

(** The epochs for which [train] prints: the multiples of [epochs // 10]. *)
Definition reported_epochs (epochs : Z) : list Z :=
  List.filter (fun epoch => (epoch mod (epochs / 10) =? 0)%Z)
    (seqZ 0 epochs).

(** The shape of a two-dimensional array, as the tuple (rows, columns). *)
Definition shape_tuple (rows : ndarray) : value :=
  VTuple [VNum (Int (Z.of_nat (length rows)));
          VNum (Int (Z.of_nat (length (default [] (head rows)))))].

(** The line that [print_shapes] prints. *)
Definition shapes_line (name : value) (shapes : list value) : list piece :=
  [Hole FmtStr name; Lit ": "; Hole FmtStr (VList shapes)].

(** The lines that [predict] prints: two of heading, one per row. *)
Definition prediction_heading : list (list piece) :=
  [[Lit "Truth table predictions"]; [Lit "_______________________"]].

Definition prediction_line (x0 x1 p : num) : list piece :=
  [Hole FmtStr (VNpNum x0); Lit " "; Hole FmtStr (VNpNum x1); Lit " | ";
   Hole (FmtFixed 14) (VNpNum p)].

End Py.

(** ** Facts about rounding *)

Section Rounding.

Import Np.
Local Open Scope R_scope.

(** *** Binary64 numbers *)

Lemma scale_pos : 0 < IZR (2 ^ 1074).
Proof. apply IZR_lt. apply Z.pow_pos_nonneg; lia. Qed.

Lemma binary64_value_Z (n : Z) : binary64_value n 0 = IZR n.
Proof.
  unfold binary64_value. pose proof scale_pos.
  change (0 + 1074)%Z with 1074%Z. rewrite mult_IZR. field. lra.
Qed.

Lemma F64_Z (n : Z) : (Z.abs n < 2 ^ 53)%Z -> F64 (IZR n).
Proof.
  intros Hn. exists n, 0%Z. split; [split; [exact Hn | lia] |].
  symmetry. apply binary64_value_Z.
Qed.

Lemma F64_0 : F64 0.
Proof. apply (F64_Z 0). lia. Qed.

Lemma F64_1 : F64 1.
Proof. apply (F64_Z 1). lia. Qed.

(** Every binary64 number is an integer multiple of 2^-1074, and that
    integer is below the overflow threshold. *)
Lemma F64_scaled g :
  F64 g ->
  exists k : Z,
    g = IZR k / IZR (2 ^ 1074)
    /\ (Z.abs k <= (2 ^ 53 - 1) * 2 ^ 2045)%Z.
Proof.
  intros (m & e & [Hm He] & ->). exists (m * 2 ^ (e + 1074))%Z.
  split; [reflexivity |].
  rewrite Z.abs_mul.
  assert (Hp : (0 < 2 ^ (e + 1074) <= 2 ^ 2045)%Z).
  { split; [apply Z.pow_pos_nonneg; lia |].
    apply Z.pow_le_mono_r; lia. }
  rewrite (Z.abs_eq (2 ^ (e + 1074))) by lia.
  apply Z.mul_le_mono_nonneg; lia.
Qed.

Lemma overflow_scaled :
  overflow_threshold = IZR ((2 ^ 1024 - 2 ^ 970) * 2 ^ 1074) / IZR (2 ^ 1074).
Proof.
  unfold overflow_threshold. pose proof scale_pos.
  rewrite mult_IZR. field. lra.
Qed.

Lemma F64_below_overflow g :
  F64 g -> - overflow_threshold < g < overflow_threshold.
Proof.
  intros Hg. destruct (F64_scaled g Hg) as (k & -> & Hk).
  rewrite overflow_scaled. pose proof scale_pos as Hs.
  assert (Hlt : ((2 ^ 53 - 1) * 2 ^ 2045
                 < (2 ^ 1024 - 2 ^ 970) * 2 ^ 1074)%Z) by reflexivity.
  assert (Hk1 : IZR k < IZR ((2 ^ 1024 - 2 ^ 970) * 2 ^ 1074))
    by (apply IZR_lt; lia).
  assert (Hk2 : IZR (- ((2 ^ 1024 - 2 ^ 970) * 2 ^ 1074)) < IZR k)
    by (apply IZR_lt; lia).
  split.
  - replace (- (IZR ((2 ^ 1024 - 2 ^ 970) * 2 ^ 1074) / IZR (2 ^ 1074)))
      with (IZR (- ((2 ^ 1024 - 2 ^ 970) * 2 ^ 1074)) / IZR (2 ^ 1074))
      by (rewrite opp_IZR; field; lra).
    apply Rmult_lt_compat_r; [apply Rinv_0_lt_compat; exact Hs | exact Hk2].
  - apply Rmult_lt_compat_r; [apply Rinv_0_lt_compat; exact Hs | exact Hk1].
Qed.


(** *** A nearest binary64 number exists *)

Lemma list_argmin {A} (d : A -> R) (l : list A) (a0 : A) :
  exists a, (a = a0 \/ In a l) /\ d a <= d a0 /\ forall b, In b l -> d a <= d b.
Proof.
  induction l as [| c l IH].
  - exists a0. split; [left; reflexivity |]. split; [lra |]. intros b [].
  - destruct IH as (a & Ha & Ha0 & Hmin).
    destruct (Rle_dec (d a) (d c)) as [Hle | Hgt].
    + exists a. split; [destruct Ha; [left | right; right]; assumption |].
      split; [exact Ha0 |]. intros b [<- | Hb]; [exact Hle | apply Hmin, Hb].
    + exists c. split; [right; left; reflexivity |].
      split; [lra |]. intros b [<- | Hb]; [lra |].
      specialize (Hmin b Hb). lra.
Qed.

Lemma F64_enumerated :
  exists grid : list (Z * Z),
    forall m e, In (m, e) grid <-> binary64_fields m e.
Proof.
  exists (list_prod (seqZ (- (2 ^ 53 - 1)) (2 ^ 54 - 1)) (seqZ (-1074) 2046)).
  intros m e. rewrite in_prod_iff, <- !list_elem_of_In, !elem_of_seqZ.
  unfold binary64_fields. lia.
Qed.

Lemma nearest_F64_exists x : exists f, nearest_F64 x f.
Proof.
  destruct F64_enumerated as [grid Hgrid].
  destruct (list_argmin
              (fun p => Rabs (binary64_value p.1 p.2 - x)) grid (0%Z, 0%Z))
    as ([m e] & Hin & _ & Hmin).
  exists (binary64_value m e). split.
  - exists m, e. split; [| reflexivity].
    destruct Hin as [[= -> ->] | Hin].
    + split; cbn; lia.
    + apply Hgrid, Hin.
  - intros g (m' & e' & Hfields & ->).
    apply (Hmin (m', e')). apply Hgrid, Hfields.
Qed.

Lemma rounds_to_exists x : exists f, rounds_to x f.
Proof.
  destruct (classic (exists g, nearest_F64 x g /\ F64_even g))
    as [(g & Hg & Heven) | Hnone].
  - exists g. split; [exact Hg | left; exact Heven].
  - destruct (nearest_F64_exists x) as [f Hf].
    exists f. split; [exact Hf | right].
    intros g Hg Heven. apply Hnone. exists g. split; assumption.
Qed.

Lemma round_nearest_spec x : rounds_to x (round_nearest x).
Proof.
  unfold round_nearest. apply epsilon_spec, rounds_to_exists.
Qed.

Lemma round_nearest_F64 x : F64 (round_nearest x).
Proof. apply (round_nearest_spec x). Qed.

Lemma round_nearest_min x g :
  F64 g -> Rabs (round_nearest x - x) <= Rabs (g - x).
Proof. intros Hg. apply (round_nearest_spec x), Hg. Qed.

Lemma round_nearest_exact x : F64 x -> round_nearest x = x.
Proof.
  intros Hx. pose proof (round_nearest_min x x Hx) as Hmin.
  rewrite Rminus_diag, Rabs_R0 in Hmin.
  pose proof (Rabs_pos (round_nearest x - x)).
  assert (Hz : Rabs (round_nearest x - x) = 0) by lra.
  destruct (Req_dec (round_nearest x - x) 0) as [Heq | Hne]; [lra |].
  apply Rabs_no_R0 in Hne. contradiction.
Qed.

(** Rounding preserves the order. *)
Lemma round_nearest_mono x y : x <= y -> round_nearest x <= round_nearest y.
Proof.
  intros [Hlt | ->]; [| lra].
  pose proof (round_nearest_min x _ (round_nearest_F64 y)) as Hx.
  pose proof (round_nearest_min y _ (round_nearest_F64 x)) as Hy.
  destruct (Rle_dec (round_nearest x) (round_nearest y)) as [Hle | Hgt];
    [exact Hle | exfalso].
  revert Hx Hy. unfold Rabs.
  repeat destruct (Rcase_abs _); lra.
Qed.

(** *** Rounded results *)

Lemma overflow_pos : 0 < overflow_threshold.
Proof. unfold overflow_threshold. apply IZR_lt. reflexivity. Qed.

Lemma rnd_Fin x :
  - overflow_threshold < x < overflow_threshold ->
  rnd x = Fin (round_nearest x).
Proof.
  intros [Hlo Hhi]. unfold rnd.
  destruct (Rle_dec overflow_threshold x); [lra |].
  destruct (Rle_dec x (- overflow_threshold)); [lra | reflexivity].
Qed.

Lemma rnd_exact x : F64 x -> rnd x = Fin x.
Proof.
  intros Hx. rewrite rnd_Fin by (apply F64_below_overflow, Hx).
  f_equal. apply round_nearest_exact, Hx.
Qed.

Lemma rnd_mono x y : x <= y -> fle (rnd x) (rnd y).
Proof.
  intros Hxy. pose proof overflow_pos. unfold rnd.
  destruct (Rle_dec overflow_threshold x), (Rle_dec overflow_threshold y),
    (Rle_dec x (- overflow_threshold)), (Rle_dec y (- overflow_threshold));
    cbn; try exact I; try lra.
  apply round_nearest_mono, Hxy.
Qed.

(** Bounds by binary64 numbers survive rounding. *)
Lemma rnd_ge a x : F64 a -> a <= x -> fle (Fin a) (rnd x).
Proof. intros Ha Hax. rewrite <- (rnd_exact a Ha). apply rnd_mono, Hax. Qed.

Lemma rnd_le b x : F64 b -> x <= b -> fle (rnd x) (Fin b).
Proof. intros Hb Hxb. rewrite <- (rnd_exact b Hb). apply rnd_mono, Hxb. Qed.

Lemma rnd_between a b x :
  F64 a -> F64 b -> a <= x <= b ->
  exists y, rnd x = Fin y /\ a <= y <= b.
Proof.
  intros Ha Hb [Hax Hxb].
  pose proof (rnd_ge a x Ha Hax) as Hlo.
  pose proof (rnd_le b x Hb Hxb) as Hhi.
  destruct (rnd x) as [y | | |]; cbn in Hlo, Hhi; try contradiction.
  exists y. split; [reflexivity | lra].
Qed.

End Rounding.

(** ** Facts about the numeric kernels *)

Section NumericKernels.

Import Np.
Local Open Scope R_scope.

(** *** Signs and the range of [sigmoid] *)

Lemma sgn_pos r : 0 < r -> sgn r = Pos.
Proof.
  intros Hr. unfold sgn.
  destruct (total_order_T r 0) as [[Hlt | Heq] | Hgt]; try reflexivity; lra.
Qed.

Lemma sgn_zero : sgn 0 = Zero.
Proof.
  unfold sgn.
  destruct (total_order_T 0 0) as [[Hlt | Heq] | Hgt]; try reflexivity; lra.
Qed.

Lemma sgn_eq_zero r : r = 0 -> sgn r = Zero.
Proof. intros ->. apply sgn_zero. Qed.

Lemma sgn_neg r : r < 0 -> sgn r = Neg.
Proof.
  intros Hr. unfold sgn.
  destruct (total_order_T r 0) as [[Hlt | Heq] | Hgt]; try reflexivity; lra.
Qed.

Lemma sgn_cases r :
  (r < 0 /\ sgn r = Neg) \/ (r = 0 /\ sgn r = Zero) \/ (0 < r /\ sgn r = Pos).
Proof.
  destruct (Rtotal_order r 0) as [Hlt | [Heq | Hgt]].
  - left. split; [exact Hlt | apply sgn_neg; exact Hlt].
  - right; left. split; [exact Heq | apply sgn_eq_zero; exact Heq].
  - right; right. split; [exact Hgt | apply sgn_pos; exact Hgt].
Qed.

Lemma rnd_0 : rnd 0 = Fin 0.
Proof. apply rnd_exact, F64_0. Qed.

Lemma rnd_1 : rnd 1 = Fin 1.
Proof. apply rnd_exact, F64_1. Qed.

(** [1 + e] for a float [e] that is not negative. *)
Lemma add_one_ge e :
  0 <= e ->
  add one (Fin e) = PInf \/ exists d, add one (Fin e) = Fin d /\ 1 <= d.
Proof.
  intros He. unfold one. cbn [add].
  pose proof (rnd_ge 1 (1 + e) F64_1 ltac:(lra)) as Hge.
  destruct (rnd (1 + e)) as [d | | |]; cbn in Hge; try contradiction.
  - right. exists d. split; [reflexivity | exact Hge].
  - left. reflexivity.
Qed.

(** [1 / d] for a float [d] from 1 on. *)
Lemma div_one_ge d :
  1 <= d -> exists y, div one (Fin d) = Fin y /\ 0 <= y <= 1.
Proof.
  intros Hd. unfold one. cbn [div]. rewrite sgn_pos by lra.
  apply (rnd_between 0 1); [apply F64_0 | apply F64_1 |].
  split.
  - apply Rlt_le, Rdiv_lt_0_compat; lra.
  - apply Rmult_le_reg_r with d; [lra |]. unfold Rdiv.
    rewrite Rmult_assoc, Rinv_l by lra. lra.
Qed.

Lemma np_exp_Fin r :
  np_exp (Fin r) = PInf \/ exists e, np_exp (Fin r) = Fin e /\ 0 <= e.
Proof.
  cbn [np_exp]. pose proof (exp_pos r) as Hr.
  pose proof (rnd_ge 0 (exp r) F64_0 ltac:(lra)) as Hge.
  destruct (rnd (exp r)) as [e | | |]; cbn in Hge; try contradiction.
  - right. exists e. split; [reflexivity | exact Hge].
  - left. reflexivity.
Qed.

Lemma sigmoid_Fin_range r deriv :
  exists y, sigmoid (Fin r) deriv = Fin y /\ 0 <= y <= 1.
Proof.
  unfold sigmoid. cbn [neg].
  destruct (np_exp_Fin (- r)) as [-> | (e & -> & He)].
  - exists 0. split; [reflexivity | lra].
  - destruct (add_one_ge e He) as [-> | (d & -> & Hd)].
    + exists 0. split; [reflexivity | lra].
    + apply div_one_ge, Hd.
Qed.

Lemma sigmoid_PInf deriv : sigmoid PInf deriv = Fin 1.
Proof.
  unfold sigmoid, one. cbn [neg np_exp add div].
  rewrite Rplus_0_r, rnd_1. cbn [div].
  rewrite (sgn_pos 1) by lra.
  replace (1 / 1) with 1 by field. apply rnd_1.
Qed.

Lemma sigmoid_NInf deriv : sigmoid NInf deriv = Fin 0.
Proof. reflexivity. Qed.

Lemma sigmoid_unit_or_nan x deriv : unit_or_nan (sigmoid x deriv).
Proof.
  destruct x as [r | | |].
  - destruct (sigmoid_Fin_range r deriv) as (y & -> & Hy). exact Hy.
  - rewrite sigmoid_PInf. cbn. lra.
  - rewrite sigmoid_NInf. cbn. lra.
  - exact I.
Qed.

(** *** Overflow of the exponential *)

Lemma exp_ge_pow2 (n : nat) : 2 ^ n <= exp (INR n).
Proof.
  induction n as [| n IH].
  - cbn. rewrite exp_0. lra.
  - rewrite S_INR, exp_plus. cbn [pow].
    assert (H1 : 2 <= exp 1).
    { pose proof (exp_ineq1 1 ltac:(lra)). lra. }
    pose proof (pow_lt 2 n ltac:(lra)) as Hp.
    pose proof (exp_pos (INR n)). nra.
Qed.

Lemma exp_overflows z : 1024 <= z -> overflow_threshold <= exp z.
Proof.
  intros Hz.
  assert (H1 : overflow_threshold <= 2 ^ 1024).
  { unfold overflow_threshold. rewrite (pow_IZR 2 1024).
    apply IZR_le. change (Z.of_nat 1024) with 1024%Z.
    assert (0 < 2 ^ 970)%Z by (apply Z.pow_pos_nonneg; lia). lia. }
  assert (H2 : 2 ^ 1024 <= exp (INR 1024)) by apply exp_ge_pow2.
  assert (H3 : exp (INR 1024) <= exp z).
  { replace (INR 1024) with 1024 by (rewrite INR_IZR_INZ; reflexivity).
    destruct Hz as [Hlt | <-]; [| lra].
    apply Rlt_le, exp_increasing, Hlt. }
  lra.
Qed.

Lemma np_exp_overflows z : 1024 <= z -> np_exp (Fin z) = PInf.
Proof.
  intros Hz. cbn [np_exp]. unfold rnd.
  destruct (Rle_dec overflow_threshold (exp z)) as [_ | Hn]; [reflexivity |].
  exfalso. apply Hn, exp_overflows, Hz.
Qed.

Lemma sigmoid_underflows z deriv : z <= -1024 -> sigmoid (Fin z) deriv = Fin 0.
Proof.
  intros Hz. unfold sigmoid. cbn [neg].
  rewrite np_exp_overflows by lra. reflexivity.
Qed.

(** *** The logarithm at 0 and 1 *)

Lemma np_log_0 : np_log (Fin 0) = NInf.
Proof. cbn [np_log]. rewrite sgn_zero. reflexivity. Qed.

Lemma np_log_1 : np_log (Fin 1) = Fin 0.
Proof. cbn [np_log]. rewrite (sgn_pos 1) by lra. rewrite ln_1. apply rnd_0. Qed.

Lemma sub_one_0 : sub one (Fin 0) = Fin 1.
Proof.
  unfold sub, one. cbn [neg add].
  replace (1 + - 0) with 1 by lra. apply rnd_1.
Qed.

Lemma sub_one_1 : sub one (Fin 1) = Fin 0.
Proof.
  unfold sub, one. cbn [neg add].
  replace (1 + - (1)) with 0 by lra. apply rnd_0.
Qed.

Lemma binary_xentropy_1_0 deriv : binary_xentropy (Fin 1) (Fin 0) deriv = PInf.
Proof.
  unfold binary_xentropy.
  rewrite np_log_0, sub_one_1, sub_one_0, np_log_1.
  cbn [mul]. rewrite (sgn_pos 1) by lra. cbn [scale_inf].
  rewrite Rmult_0_l, rnd_0. reflexivity.
Qed.

Lemma binary_xentropy_0_1 deriv : binary_xentropy (Fin 0) (Fin 1) deriv = PInf.
Proof.
  unfold binary_xentropy.
  rewrite np_log_1, sub_one_0, sub_one_1, np_log_0.
  cbn [mul]. rewrite (sgn_pos 1) by lra. cbn [scale_inf].
  rewrite Rmult_0_l, rnd_0. reflexivity.
Qed.

Lemma binary_xentropy_0_0 deriv : binary_xentropy (Fin 0) (Fin 0) deriv = NaN.
Proof.
  unfold binary_xentropy. rewrite np_log_0.
  cbn [mul]. rewrite sgn_zero. reflexivity.
Qed.

Lemma binary_xentropy_1_1 deriv : binary_xentropy (Fin 1) (Fin 1) deriv = NaN.
Proof.
  unfold binary_xentropy.
  rewrite np_log_1, sub_one_1, np_log_0.
  cbn [mul]. rewrite sgn_zero. cbn [scale_inf].
  rewrite Rmult_1_l, rnd_0. reflexivity.
Qed.



(** C9.  [binary_xentropy] takes the logarithm of [p] and of [1 - p] as
    they are: with target 1 and prediction 0, and with target 0 and
    prediction 1, the logarithm of zero is taken and the loss is
    infinite, not a finite number. *)
Theorem binary_xentropy_log_of_zero (deriv : bool) :
  np_log (Fin 0) = NInf
  /\ binary_xentropy (Fin 1) (Fin 0) deriv = PInf
  /\ binary_xentropy (Fin 0) (Fin 1) deriv = PInf
  /\ ~ finite (binary_xentropy (Fin 1) (Fin 0) deriv)
  /\ ~ finite (binary_xentropy (Fin 0) (Fin 1) deriv).
Proof.
  pose proof (binary_xentropy_1_0 deriv) as H10.
  pose proof (binary_xentropy_0_1 deriv) as H01.
  split; [apply np_log_0 |].
  repeat split; try assumption.
  - rewrite H10. intros [].
  - rewrite H01. intros [].
Qed.

End NumericKernels.

(** ** Facts about the notebook's functions *)

Section Notebook.

Import Np Py.

Lemma bind_run {A B} (m : M A) (k : A -> M B) (s : state) :
  (m ≫= k) s
  = match m s with
    | (Ok a, s') => k a s'
    | (Raise e, s') => (Raise e, s')
    end.
Proof. reflexivity. Qed.

Lemma bind_ret_l {A B} (a : A) (k : A -> M B) : (ret a ≫= k) = k a.
Proof. reflexivity. Qed.

Lemma bind_run_Ok {A B} (m : M A) (k : A -> M B) s a s' :
  m s = (Ok a, s') -> (m ≫= k) s = k a s'.
Proof. intros H. rewrite bind_run, H. reflexivity. Qed.

Lemma bind_run_Raise {A B} (m : M A) (k : A -> M B) s e s' :
  m s = (Raise e, s') -> (m ≫= k) s = (Raise e, s').
Proof. intros H. rewrite bind_run, H. reflexivity. Qed.

(** *** No assertion but the one of [shuffle_and_batch] *)

Lemma no_assert_ret {A} (a : A) : no_assert (ret a).
Proof. intros s H. exact H. Qed.

Lemma no_assert_bind {A B} (m : M A) (k : A -> M B) :
  no_assert m -> (forall a, no_assert (k a)) -> no_assert (m ≫= k).
Proof.
  intros Hm Hk s. rewrite bind_run. specialize (Hm s).
  destruct (m s) as [[a | e] s'].
  - apply Hk.
  - exact Hm.
Qed.

Lemma no_assert_lookup_name name : no_assert (lookup_name name).
Proof.
  intros s. unfold lookup_name.
  destruct (globals s !! name); cbn; tauto.
Qed.

Lemma no_assert_print line : no_assert (print line).
Proof. intros s H. exact H. Qed.

Lemma no_assert_np_array rows : no_assert (np_array rows).
Proof. intros s H. exact H. Qed.

Lemma nth_item_no_assert {A} (xs : list A) i : ~ raises_assertion (nth_item xs i).
Proof.
  unfold nth_item.
  destruct (_ <? 0)%Z; [tauto |].
  destruct (xs !! _); cbn; tauto.
Qed.

Lemma no_assert_py_len v : no_assert (py_len v).
Proof.
  intros s. unfold py_len. cbn.
  destruct v as [| | | | | l |]; cbn; try tauto.
  destruct (store s !! l); cbn; tauto.
Qed.

Lemma no_assert_py_iter v : no_assert (py_iter v).
Proof.
  intros s. unfold py_iter. cbn.
  destruct v as [| | | | | l |]; cbn; try tauto.
  destruct (store s !! l); cbn; tauto.
Qed.

Lemma no_assert_py_getitem v i : no_assert (py_getitem v i).
Proof.
  intros s. unfold py_getitem. cbn.
  destruct v as [| | | | | l |]; cbn; try tauto;
    try apply nth_item_no_assert.
  destruct (store s !! l); cbn; [apply nth_item_no_assert | tauto].
Qed.

Lemma no_assert_py_format spec v : no_assert (py_format spec v).
Proof.
  intros s. destruct spec, v as [| [n |] | [] | | | |]; cbn; try tauto.
  destruct (fits_float n); cbn; tauto.
Qed.

Lemma no_assert_py_floordiv a b : no_assert (py_floordiv a b).
Proof. intros s. unfold py_floordiv. destruct (b =? 0)%Z; cbn; tauto. Qed.

Lemma no_assert_py_mod a b : no_assert (py_mod a b).
Proof. intros s. unfold py_mod. destruct (b =? 0)%Z; cbn; tauto. Qed.

Lemma no_assert_py_unpack2 v : no_assert (py_unpack2 v).
Proof.
  apply no_assert_bind; [apply no_assert_py_iter |].
  intros [| a [| b [| c rest]]] s; cbn; tauto.
Qed.

Lemma no_assert_py_unpack3 v : no_assert (py_unpack3 v).
Proof.
  apply no_assert_bind; [apply no_assert_py_iter |].
  intros [| a [| b [| c [| d rest]]]] s; cbn; tauto.
Qed.

Lemma no_assert_for_each {A} (xs : list A) (body : A -> M unit) :
  (forall x, no_assert (body x)) -> no_assert (for_each xs body).
Proof.
  intros Hbody. induction xs as [| x rest IH]; cbn [for_each].
  - apply no_assert_ret.
  - apply no_assert_bind; [apply Hbody | intros _; exact IH].
Qed.

Lemma no_assert_map_each {A B} (xs : list A) (f : A -> M B) :
  (forall x, no_assert (f x)) -> no_assert (map_each xs f).
Proof.
  intros Hf. induction xs as [| x rest IH]; cbn [map_each].
  - apply no_assert_ret.
  - apply no_assert_bind; [apply Hf | intros y].
    apply no_assert_bind; [exact IH | intros ys].
    apply no_assert_ret.
Qed.

Lemma no_assert_py_shape v : no_assert (py_shape v).
Proof.
  intros s. unfold py_shape. cbn.
  destruct v as [| | | | | l |]; cbn; try tauto.
  destruct (store s !! l); cbn; tauto.
Qed.

Create HintDb no_assert.

#[local] Hint Resolve no_assert_ret no_assert_lookup_name
  no_assert_print no_assert_np_array no_assert_py_len no_assert_py_iter
  no_assert_py_getitem no_assert_py_format no_assert_py_floordiv
  no_assert_py_mod no_assert_py_unpack2 no_assert_py_unpack3
  no_assert_py_shape : no_assert.

(** One step through a sequence of statements. *)
Ltac no_assert_step :=
  match goal with
  | |- no_assert (_ ≫= _) => apply no_assert_bind; [| intros ?]
  | |- no_assert (for_each _ _) => apply no_assert_for_each; intros ?
  | |- no_assert (map_each _ _) => apply no_assert_map_each; intros ?
  | |- no_assert (if ?c then _ else _) => destruct c
  | |- no_assert (let '(_, _) := ?p in _) => destruct p
  | |- no_assert _ => solve [auto with no_assert]
  end.

Lemma no_assert_generate_data : no_assert generate_data.
Proof. unfold generate_data. repeat no_assert_step. Qed.

Lemma no_assert_get_parameters : no_assert get_parameters.
Proof. unfold get_parameters. repeat no_assert_step. Qed.

Lemma no_assert_print_shapes ls name : no_assert (print_shapes ls name).
Proof. unfold print_shapes. repeat no_assert_step. Qed.

Lemma no_assert_feedforward x weights biases :
  no_assert (feedforward x weights biases).
Proof. unfold feedforward. repeat no_assert_step. Qed.

Lemma no_assert_backprop x y weights biases :
  no_assert (backprop x y weights biases).
Proof. unfold backprop. repeat no_assert_step. Qed.

Lemma no_assert_SGD X Y batch_size lr weights biases :
  no_assert (SGD X Y batch_size lr weights biases).
Proof. unfold SGD. apply no_assert_ret. Qed.

Lemma no_assert_train dataset weights biases epochs lr batch_size :
  no_assert (train dataset weights biases epochs lr batch_size).
Proof. unfold train. repeat no_assert_step. Qed.

Lemma no_assert_predict dataset weights biases :
  no_assert (predict dataset weights biases).
Proof.
  unfold predict.
  pose proof no_assert_feedforward.
  repeat no_assert_step.
Qed.

(** *** Arrays and variables that stay as they are *)

Lemma keeps_arrays_ret {A} (a : A) : keeps_arrays (ret a).
Proof. intros s. split; reflexivity. Qed.

Lemma keeps_arrays_bind {A B} (m : M A) (k : A -> M B) :
  keeps_arrays m -> (forall a, keeps_arrays (k a)) -> keeps_arrays (m ≫= k).
Proof.
  intros Hm Hk s. rewrite bind_run. specialize (Hm s).
  destruct (m s) as [[a | e] s']; cbn in Hm.
  - destruct (Hk a s') as [Hst Hgl].
    destruct Hm as [<- <-]. split; assumption.
  - exact Hm.
Qed.

Lemma keeps_arrays_lookup_name name : keeps_arrays (lookup_name name).
Proof.
  intros s. unfold lookup_name.
  destruct (globals s !! name); split; reflexivity.
Qed.

Lemma keeps_arrays_print line : keeps_arrays (print line).
Proof. intros s. split; reflexivity. Qed.

Lemma keeps_arrays_py_format spec v : keeps_arrays (py_format spec v).
Proof.
  intros s. destruct spec, v as [| [n |] | [] | | | |];
    try (split; reflexivity).
  cbn [py_format]. destruct (fits_float n); split; reflexivity.
Qed.

Lemma keeps_arrays_py_floordiv a b : keeps_arrays (py_floordiv a b).
Proof.
  intros s. unfold py_floordiv. destruct (b =? 0)%Z; split; reflexivity.
Qed.

Lemma keeps_arrays_py_mod a b : keeps_arrays (py_mod a b).
Proof.
  intros s. unfold py_mod. destruct (b =? 0)%Z; split; reflexivity.
Qed.

Lemma keeps_arrays_for_each {A} (xs : list A) (body : A -> M unit) :
  (forall x, keeps_arrays (body x)) -> keeps_arrays (for_each xs body).
Proof.
  intros Hbody. induction xs as [| x rest IH]; cbn [for_each].
  - apply keeps_arrays_ret.
  - apply keeps_arrays_bind; [apply Hbody | intros _; exact IH].
Qed.

Lemma keeps_arrays_train dataset weights biases epochs lr batch_size :
  keeps_arrays (train dataset weights biases epochs lr batch_size).
Proof.
  unfold train.
  apply keeps_arrays_bind; [| intros _; apply keeps_arrays_ret].
  apply keeps_arrays_for_each. intros epoch.
  apply keeps_arrays_bind; [apply keeps_arrays_py_floordiv | intros step].
  apply keeps_arrays_bind; [apply keeps_arrays_py_mod | intros r].
  destruct (r =? 0)%Z; [| apply keeps_arrays_ret].
  apply keeps_arrays_bind; [apply keeps_arrays_py_format | intros h_epoch].
  apply keeps_arrays_bind; [apply keeps_arrays_lookup_name | intros loss].
  apply keeps_arrays_bind; [apply keeps_arrays_py_format | intros h_loss].
  apply keeps_arrays_bind; [apply keeps_arrays_print | intros _].
  apply keeps_arrays_ret.
Qed.

(** *** The training loop *)

(** What [train] does in the shipped notebook, by number of epochs. *)
Lemma train_no_epoch dataset weights biases epochs lr batch_size s :
  (epochs <= 0)%Z ->
  train dataset weights biases epochs lr batch_size s = (Ok (VList []), s).
Proof.
  intros Hle. unfold train, py_range.
  replace (seqZ 0 epochs) with (@nil Z); [reflexivity |].
  unfold seqZ. rewrite Z2Nat.nonpos by lia. reflexivity.
Qed.

Lemma train_few_epochs dataset weights biases epochs lr batch_size s :
  (0 < epochs < 10)%Z ->
  train dataset weights biases epochs lr batch_size s
  = (Raise ZeroDivisionError, s).
Proof.
  intros Hlt. unfold train, py_range.
  rewrite seqZ_cons by lia. cbn [for_each].
  do 2 apply bind_run_Raise. cbn beta.
  unfold py_floordiv. change (10 =? 0)%Z with false. cbn iota.
  rewrite bind_ret_l. unfold py_mod.
  rewrite Z.div_small by lia. reflexivity.
Qed.

Lemma train_unbound_loss dataset weights biases epochs lr batch_size st out :
  (10 <= epochs)%Z ->
  train dataset weights biases epochs lr batch_size (shipped st out)
  = (Raise (NameError "epoch_loss"), shipped st out).
Proof.
  intros Hge. unfold train, py_range.
  rewrite seqZ_cons by lia. cbn [for_each].
  do 2 apply bind_run_Raise. cbn beta.
  unfold py_floordiv. change (10 =? 0)%Z with false. cbn iota.
  rewrite bind_ret_l. unfold py_mod.
  assert (Hq : (0 < epochs / 10)%Z) by (apply Z.div_str_pos; lia).
  assert (Hstep : (epochs / 10 =? 0)%Z = false) by (apply Z.eqb_neq; lia).
  rewrite Hstep, bind_ret_l, Z.mod_0_l by lia.
  reflexivity.
Qed.

(** Nothing is ever appended to [losses]. *)
Lemma train_returns_no_loss dataset weights biases epochs lr batch_size s v s' :
  train dataset weights biases epochs lr batch_size s = (Ok v, s') ->
  v = VList [].
Proof.
  unfold train. rewrite bind_run.
  destruct (for_each _ _ s) as [[[] | e] s1]; intros H; inversion H.
  reflexivity.
Qed.

(** *** The batch-size assertion *)

Lemma shuffle_and_batch_within X Y batch_size s n :
  len_of (store s) X = Ok n ->
  (batch_size <= n)%Z ->
  shuffle_and_batch X Y batch_size s = (Ok VNone, s).
Proof.
  intros Hlen Hle. unfold shuffle_and_batch.
  rewrite (bind_run_Ok _ _ s n s) by (unfold py_len; rewrite Hlen; reflexivity).
  assert (Hb : (batch_size <=? n)%Z = true) by (apply Z.leb_le; exact Hle).
  rewrite Hb. reflexivity.
Qed.

Lemma shuffle_and_batch_exceeds X Y batch_size s n :
  len_of (store s) X = Ok n ->
  (n < batch_size)%Z ->
  shuffle_and_batch X Y batch_size s
  = (Raise (AssertionError VNone),
     State (globals s) (store s)
       (console s
        ++ [[Lit "Batch size must be smaller than the dataset size"]])).
Proof.
  intros Hlen Hlt. unfold shuffle_and_batch.
  rewrite (bind_run_Ok _ _ s n s) by (unfold py_len; rewrite Hlen; reflexivity).
  assert (Hb : (batch_size <=? n)%Z = false) by (apply Z.leb_gt; exact Hlt).
  rewrite Hb. reflexivity.
Qed.

(** C2.  In every state, [generate_data] returns a pair of new arrays
    that hold the four bit pairs [1,0], [0,1], [0,0], [1,1] and the labels
    [1], [1], [0], [0]; each label is the exclusive or of the two bits of
    its row; the call touches no array that existed before, no variable
    and not the console.  Every call therefore returns the same table. *)
Theorem generate_data_xor_table (s : state) :
  let lx := length (store s) in
  let ly := S (length (store s)) in
  let s' := State (globals s)
              ((store s ++ [xor_bitpairs]) ++ [xor_outputs]) (console s) in
  generate_data s = (Ok (VTuple [VArray lx; VArray ly]), s')
  /\ store s' !! lx = Some xor_bitpairs
  /\ store s' !! ly = Some xor_outputs
  /\ xor_bitpairs
     = [[Int 1; Int 0]; [Int 0; Int 1]; [Int 0; Int 0]; [Int 1; Int 1]]
  /\ xor_outputs = [[Int 1]; [Int 1]; [Int 0]; [Int 0]]
  /\ Forall (Forall is_bit) xor_bitpairs
  /\ map xor_row xor_bitpairs = xor_outputs
  /\ (forall l a, store s !! l = Some a -> store s' !! l = Some a).
Proof.
  cbn zeta. repeat apply conj.
  - unfold generate_data. rewrite bind_run. cbn [np_array globals store console].
    rewrite bind_run. cbn [np_array globals store console ret].
    rewrite length_app, Nat.add_1_r. reflexivity.
  - cbn [store]. rewrite <- app_assoc. cbn [app].
    rewrite lookup_app_r by lia. rewrite Nat.sub_diag. reflexivity.
  - cbn [store]. rewrite <- app_assoc. cbn [app].
    rewrite lookup_app_r by lia.
    replace (S (length (store s)) - length (store s))%nat with 1%nat by lia.
    reflexivity.
  - reflexivity.
  - reflexivity.
  - unfold xor_bitpairs.
    repeat match goal with
           | |- Forall _ _ => constructor
           | |- is_bit _ => (left; reflexivity) || (right; reflexivity)
           end.
  - reflexivity.
  - intros l a Hl. cbn [store]. rewrite <- app_assoc.
    apply lookup_app_l_Some. exact Hl.
Qed.

(** C3.  When [X] has a length, [shuffle_and_batch] raises
    [AssertionError] exactly when [batch_size] exceeds [len(X)], and
    otherwise returns without any error and without any effect.  No other
    function of the notebook, on any arguments and in any state, raises
    [AssertionError]; [sigmoid] and [binary_xentropy] are total functions
    that raise nothing. *)
Theorem shuffle_and_batch_assertion X Y batch_size s n :
  len_of (store s) X = Ok n ->
  (raises_assertion (shuffle_and_batch X Y batch_size s).1
   <-> (n < batch_size)%Z)
  /\ ((batch_size <= n)%Z ->
      shuffle_and_batch X Y batch_size s = (Ok VNone, s))
  /\ no_assert generate_data
  /\ no_assert get_parameters
  /\ (forall ls name, no_assert (print_shapes ls name))
  /\ (forall x weights biases, no_assert (feedforward x weights biases))
  /\ (forall x y weights biases, no_assert (backprop x y weights biases))
  /\ (forall X' Y' bs lr weights biases,
         no_assert (SGD X' Y' bs lr weights biases))
  /\ (forall dataset weights biases epochs lr bs,
         no_assert (train dataset weights biases epochs lr bs))
  /\ (forall dataset weights biases,
         no_assert (predict dataset weights biases)).
Proof.
  intros Hlen. split; [| split].
  - split.
    + intros Hraise.
      destruct (Z.le_gt_cases batch_size n) as [Hle | Hgt]; [| exact Hgt].
      rewrite (shuffle_and_batch_within X Y batch_size s n Hlen Hle) in Hraise.
      destruct Hraise.
    + intros Hgt.
      rewrite (shuffle_and_batch_exceeds X Y batch_size s n Hlen Hgt).
      exact I.
  - apply shuffle_and_batch_within. exact Hlen.
  - repeat split.
    + apply no_assert_generate_data.
    + apply no_assert_get_parameters.
    + apply no_assert_print_shapes.
    + apply no_assert_feedforward.
    + apply no_assert_backprop.
    + apply no_assert_SGD.
    + apply no_assert_train.
    + apply no_assert_predict.
Qed.

Lemma shuffle_and_batch_assertion_witness :
  len_of (store data_state) (VArray 0) = Ok 4%Z
  /\ (raises_assertion
        (shuffle_and_batch (VArray 0) (VArray 1) 5 data_state).1
      <-> (4 < 5)%Z)
  /\ ((4 <= 4)%Z ->
      shuffle_and_batch (VArray 0) (VArray 1) 4 data_state
      = (Ok VNone, data_state)).
Proof.
  split; [reflexivity |]. split.
  - exact (proj1 (shuffle_and_batch_assertion
                    (VArray 0) (VArray 1) 5 data_state 4 eq_refl)).
  - exact (proj1 (proj2 (shuffle_and_batch_assertion
                           (VArray 0) (VArray 1) 4 data_state 4 eq_refl))).
Defined.

(** C10.  When [batch_size] does not exceed [len(X)], [shuffle_and_batch]
    returns [None] and changes nothing; a caller that iterates over the
    result gets a [TypeError] before its loop body runs once. *)
Theorem shuffle_and_batch_returns_None X Y batch_size s n :
  len_of (store s) X = Ok n ->
  (batch_size <= n)%Z ->
  shuffle_and_batch X Y batch_size s = (Ok VNone, s)
  /\ forall body : value -> M unit,
       (batches ← shuffle_and_batch X Y batch_size; py_for batches body) s
       = (Raise TypeError, s).
Proof.
  intros Hlen Hle.
  pose proof (shuffle_and_batch_within X Y batch_size s n Hlen Hle) as Hret.
  split; [exact Hret |].
  intros body. rewrite (bind_run_Ok _ _ s VNone s Hret). reflexivity.
Qed.

Lemma shuffle_and_batch_returns_None_witness :
  shuffle_and_batch (VArray 0) (VArray 1) 2 data_state
  = (Ok VNone, data_state)
  /\ forall body : value -> M unit,
       (batches ← shuffle_and_batch (VArray 0) (VArray 1) 2;
        py_for batches body) data_state
       = (Raise TypeError, data_state).
Proof.
  apply (shuffle_and_batch_returns_None (VArray 0) (VArray 1) 2 data_state 4).
  - reflexivity.
  - lia.
Defined.

(** *** The unfinished cells *)

(** C1.  [backprop] computes no gradient.  Its body returns the names
    [gradw] and [gradb], which nothing binds: in the shipped notebook every
    call raises [NameError] for [gradw], whatever the batch, the labels
    and the parameters, and the arguments never reach the result.
    [feedforward] fails in the same way on [zs]. *)
Theorem backprop_computes_no_gradient :
  (forall x y weights biases st out,
      backprop x y weights biases (shipped st out)
      = (Raise (NameError "gradw"), shipped st out))
  /\ (forall x y weights biases x' y' weights' biases' s,
         backprop x y weights biases s = backprop x' y' weights' biases' s)
  /\ (forall x weights biases st out,
         feedforward x weights biases (shipped st out)
         = (Raise (NameError "zs"), shipped st out)).
Proof.
  repeat split.
Qed.

(** C4.  [train] records no loss.  With the default hundred epochs, and
    with any number of epochs from ten on, the shipped notebook raises
    [NameError] for [epoch_loss] in the first epoch; with one to nine
    epochs the modulus is zero and [ZeroDivisionError] is raised; with no
    epoch the empty list is returned.  Whenever [train] returns, the list
    is empty. *)
Theorem train_records_no_loss :
  (forall dataset weights biases st out,
      train dataset weights biases
        default_epochs default_lr default_batch_size (shipped st out)
      = (Raise (NameError "epoch_loss"), shipped st out))
  /\ (forall dataset weights biases epochs lr batch_size s v s',
         train dataset weights biases epochs lr batch_size s = (Ok v, s') ->
         v = VList []).
Proof.
  split.
  - intros. apply train_unbound_loss. unfold default_epochs. lia.
  - intros dataset weights biases epochs lr batch_size s v s'.
    apply train_returns_no_loss.
Qed.

Lemma train_records_no_loss_witness :
  train (VTuple [VArray 0; VArray 1]) (VList []) (VList []) 0
    default_lr default_batch_size data_state
  = (Ok (VList []), data_state)
  /\ VList [] = VList [].
Proof.
  split.
  - reflexivity.
  - exact (proj2 train_records_no_loss
             (VTuple [VArray 0; VArray 1]) (VList []) (VList []) 0%Z
             default_lr default_batch_size data_state (VList []) data_state
             eq_refl).
Defined.

(** C5.  [predict] prints no prediction.  In the shipped notebook its
    call of [feedforward] raises [NameError] for [zs] before anything is
    printed, for every data set and all parameters; so it does on the
    data of [generate_data]. *)
Theorem predict_makes_no_prediction :
  (forall X Y weights biases st out,
      predict (VTuple [X; Y]) weights biases (shipped st out)
      = (Raise (NameError "zs"), shipped st out))
  /\ (forall weights biases,
         (dataset ← generate_data; predict dataset weights biases)
           (shipped [] [])
         = (Raise (NameError "zs"), data_state)).
Proof.
  split; reflexivity.
Qed.

(** C6.  [get_parameters] samples nothing.  Its body returns the names
    [w] and [b], which nothing binds: in the shipped notebook the call
    raises [NameError] for [w].  In no state does it create an array or
    change anything, and where both names are bound it hands back what
    they hold. *)
Theorem get_parameters_creates_no_parameters :
  (forall st out,
      get_parameters (shipped st out) = (Raise (NameError "w"), shipped st out))
  /\ (forall s, (get_parameters s).2 = s)
  /\ (forall s v,
         (get_parameters s).1 = Ok v ->
         exists w b,
           globals s !! "w" = Some w /\ globals s !! "b" = Some b
           /\ v = VTuple [w; b]).
Proof.
  split; [reflexivity |]. split.
  - intros s. unfold get_parameters. rewrite bind_run. unfold lookup_name.
    destruct (globals s !! "w") as [w |]; [| reflexivity].
    rewrite bind_run.
    destruct (globals s !! "b") as [b |]; reflexivity.
  - intros s v. unfold get_parameters. rewrite bind_run. unfold lookup_name.
    destruct (globals s !! "w") as [w |]; [| discriminate].
    rewrite bind_run.
    destruct (globals s !! "b") as [b |]; [| discriminate].
    cbn. intros [= <-]. exists w, b. repeat split.
Qed.

(** A notebook in which a learner has bound [w] and [b] to two numbers. *)
Lemma get_parameters_creates_no_parameters_witness :
  let s := State {[ "w" := VNum (Int 1); "b" := VNum (Int 2) ]} [] [] in
  (get_parameters s).1 = Ok (VTuple [VNum (Int 1); VNum (Int 2)])
  /\ exists w b,
       globals s !! "w" = Some w /\ globals s !! "b" = Some b
       /\ VTuple [VNum (Int 1); VNum (Int 2)] = VTuple [w; b].
Proof.
  cbn zeta. split.
  - vm_compute. reflexivity.
  - apply (proj2 (proj2 get_parameters_creates_no_parameters)).
    vm_compute. reflexivity.
Defined.

(** C7.  [SGD] updates no parameter.  Its body is empty: every call
    returns [None] and leaves the whole state, the weight and bias arrays
    included, as it was.  [train] does not call it, and changes no array
    and no variable either. *)
Theorem SGD_updates_nothing :
  (forall X Y batch_size lr weights biases s,
      SGD X Y batch_size lr weights biases s = (Ok VNone, s))
  /\ (forall dataset weights biases epochs lr batch_size,
         keeps_arrays (train dataset weights biases epochs lr batch_size)).
Proof.
  split.
  - reflexivity.
  - apply keeps_arrays_train.
Qed.

End Notebook.

(** ** Further properties of the numeric kernels *)

Section KernelProperties.

Import Np.
Local Open Scope R_scope.

(** *** The loss on predictions strictly between 0 and 1 *)

Lemma F64_smallest : F64 (/ IZR (2 ^ 1074)).
Proof.
  exists 1%Z, (-1074)%Z. split; [split; lia |].
  unfold binary64_value. change (1 * 2 ^ (-1074 + 1074))%Z with 1%Z.
  unfold Rdiv. lra.
Qed.

Lemma F64_pos_ge_smallest p : F64 p -> 0 < p -> / IZR (2 ^ 1074) <= p.
Proof.
  intros Hp Hpos. destruct (F64_scaled p Hp) as (k & -> & _).
  pose proof scale_pos as Hs.
  assert (Hk : 0 < IZR k).
  { apply Rmult_lt_reg_r with (/ IZR (2 ^ 1074));
      [apply Rinv_0_lt_compat, Hs |].
    rewrite Rmult_0_l. exact Hpos. }
  apply lt_0_IZR in Hk.
  assert (Hk1 : 1 <= IZR k) by (apply (IZR_le 1); lia).
  unfold Rdiv. rewrite <- (Rmult_1_l (/ IZR (2 ^ 1074))) at 1.
  apply Rmult_le_compat_r; [apply Rlt_le, Rinv_0_lt_compat, Hs | exact Hk1].
Qed.

Lemma F64_below_1_gap p : F64 p -> p < 1 -> / IZR (2 ^ 1074) <= 1 - p.
Proof.
  intros Hp Hlt. destruct (F64_scaled p Hp) as (k & -> & _).
  pose proof scale_pos as Hs.
  assert (Hk : IZR k < IZR (2 ^ 1074)).
  { apply Rmult_lt_reg_r with (/ IZR (2 ^ 1074));
      [apply Rinv_0_lt_compat, Hs |].
    rewrite Rinv_r by lra. exact Hlt. }
  apply lt_IZR in Hk.
  assert (Hk1 : IZR k <= IZR (2 ^ 1074 - 1)) by (apply IZR_le; lia).
  rewrite minus_IZR in Hk1.
  apply Rmult_le_reg_r with (IZR (2 ^ 1074)); [exact Hs |].
  rewrite Rinv_l by lra.
  replace ((1 - IZR k / IZR (2 ^ 1074)) * IZR (2 ^ 1074))
    with (IZR (2 ^ 1074) - IZR k) by (field; lra).
  lra.
Qed.

Lemma ln_2_le_1 : ln 2 <= 1.
Proof.
  rewrite <- (ln_exp 1). apply Rlt_le, ln_increasing; [lra |].
  pose proof (exp_ineq1 1 ltac:(lra)). lra.
Qed.

Lemma ln_smallest : -1074 <= ln (/ IZR (2 ^ 1074)).
Proof.
  pose proof scale_pos as Hs. rewrite ln_Rinv by exact Hs.
  replace (IZR (2 ^ 1074)) with (2 ^ 1074)
    by (rewrite (pow_IZR 2 1074); reflexivity).
  rewrite ln_pow by lra.
  replace (INR 1074) with 1074 by (rewrite INR_IZR_INZ; reflexivity).
  pose proof ln_2_le_1.
  assert (0 < ln 2) by (rewrite <- ln_1; apply ln_increasing; lra).
  nra.
Qed.

Lemma ln_unit_range x : / IZR (2 ^ 1074) <= x <= 1 -> -1074 <= ln x <= 0.
Proof.
  intros [Hlo Hhi]. pose proof scale_pos as Hs.
  assert (Hu : 0 < / IZR (2 ^ 1074)) by (apply Rinv_0_lt_compat, Hs).
  pose proof ln_smallest as Hl. split.
  - destruct Hlo as [Hlt | <-]; [| exact Hl].
    pose proof (ln_increasing _ _ Hu Hlt). lra.
  - rewrite <- ln_1. destruct Hhi as [Hlt | ->]; [| lra].
    apply Rlt_le, ln_increasing; lra.
Qed.

(** The logarithm of a float in [2^-1074, 1]. *)
Lemma np_log_unit q :
  / IZR (2 ^ 1074) <= q <= 1 ->
  exists l, np_log (Fin q) = Fin l /\ -1074 <= l <= 0.
Proof.
  intros Hq. pose proof scale_pos as Hs.
  assert (Hu : 0 < / IZR (2 ^ 1074)) by (apply Rinv_0_lt_compat, Hs).
  cbn [np_log]. rewrite sgn_pos by lra.
  apply (rnd_between (-1074) 0);
    [apply (F64_Z (-1074)); lia | apply F64_0 | apply ln_unit_range, Hq].
Qed.

(** A weight in [0, 1] times such a logarithm. *)
Lemma mul_weight_log u l :
  0 <= u <= 1 -> -1074 <= l <= 0 ->
  exists a, mul (Fin u) (Fin l) = Fin a /\ -1074 <= a <= 0.
Proof.
  intros Hu Hl. cbn [mul].
  apply (rnd_between (-1074) 0);
    [apply (F64_Z (-1074)); lia | apply F64_0 | nra].
Qed.

Lemma binary_xentropy_range t p deriv :
  F64 p -> 0 < p < 1 -> 0 <= t <= 1 ->
  exists y, binary_xentropy (Fin t) (Fin p) deriv = Fin y /\ 0 <= y <= 2148.
Proof.
  intros Hp [Hp0 Hp1] Ht. unfold binary_xentropy.
  pose proof (F64_pos_ge_smallest p Hp Hp0) as Hlo.
  pose proof (F64_below_1_gap p Hp Hp1) as Hgap.
  destruct (np_log_unit p ltac:(lra)) as (l1 & -> & Hl1).
  destruct (mul_weight_log t l1 Ht Hl1) as (a & -> & Ha).
  assert (Hu : exists u, sub one (Fin t) = Fin u /\ 0 <= u <= 1).
  { unfold sub, one. cbn [neg add].
    apply (rnd_between 0 1); [apply F64_0 | apply F64_1 | lra]. }
  destruct Hu as (u & -> & Hu).
  assert (Hq : exists q, sub one (Fin p) = Fin q
                         /\ / IZR (2 ^ 1074) <= q <= 1).
  { unfold sub, one. cbn [neg add].
    apply (rnd_between (/ IZR (2 ^ 1074)) 1);
      [apply F64_smallest | apply F64_1 | lra]. }
  destruct Hq as (q & -> & Hq).
  destruct (np_log_unit q Hq) as (l2 & -> & Hl2).
  destruct (mul_weight_log u l2 Hu Hl2) as (b & -> & Hb).
  cbn [add].
  destruct (rnd_between (-2148) 0 (a + b)
              ltac:(apply (F64_Z (-2148)); lia) F64_0 ltac:(lra))
    as (c & -> & Hc).
  exists (- c). split; [reflexivity | lra].
Qed.

Lemma mul_not_finite_r x y : ~ finite y -> ~ finite (mul x y).
Proof.
  destruct x as [a | | |], y as [b | | |]; cbn; try tauto;
    destruct (sgn a); cbn; tauto.
Qed.

Lemma add_not_finite_l x y : ~ finite x -> ~ finite (add x y).
Proof. destruct x, y; cbn; tauto. Qed.

Lemma add_not_finite_r x y : ~ finite y -> ~ finite (add x y).
Proof. destruct x, y; cbn; tauto. Qed.

Lemma neg_finite x : finite (neg x) <-> finite x.
Proof. destruct x; cbn; tauto. Qed.

(** Outside the open unit interval the loss is not a number. *)
Lemma binary_xentropy_outside t p deriv :
  p <= 0 \/ 1 <= p -> ~ finite (binary_xentropy (Fin t) (Fin p) deriv).
Proof.
  intros Hp. unfold binary_xentropy. rewrite neg_finite.
  destruct Hp as [Hp | Hp].
  - apply add_not_finite_l, mul_not_finite_r. cbn [np_log].
    destruct (sgn_cases p) as [[_ ->] | [[_ ->] | [Hpos _]]];
      [cbn; tauto | cbn; tauto | lra].
  - apply add_not_finite_r, mul_not_finite_r.
    unfold sub, one. cbn [neg add].
    pose proof (rnd_le 0 (1 + - p) F64_0 ltac:(lra)) as Hle.
    destruct (rnd (1 + - p)) as [q | | |]; cbn in Hle; try contradiction;
      [| cbn; tauto].
    cbn [np_log].
    destruct (sgn_cases q) as [[_ ->] | [[_ ->] | [Hpos _]]];
      [cbn; tauto | cbn; tauto | lra].
Qed.

(** *** Saturation at 1 *)

(** The binary64 number after 1 is 1 + 2^-52. *)
Lemma F64_above_1_gap f : F64 f -> 1 < f -> 1 + / IZR (2 ^ 52) <= f.
Proof.
  intros (m & e & [Hm He] & ->) Hgt. unfold binary64_value in *.
  pose proof scale_pos as Hs.
  assert (Hk : (2 ^ 1074 < m * 2 ^ (e + 1074))%Z).
  { apply lt_IZR.
    apply Rmult_lt_reg_r with (/ IZR (2 ^ 1074));
      [apply Rinv_0_lt_compat, Hs |].
    rewrite Rinv_r by lra. exact Hgt. }
  assert (Hstep : (2 ^ 1074 + 2 ^ 1022 <= m * 2 ^ (e + 1074))%Z).
  { destruct (Z_le_gt_dec 1022 (e + 1074)) as [Hbig | Hsmall].
    - replace (e + 1074)%Z with ((e + 52) + 1022)%Z in * by lia.
      rewrite Z.pow_add_r in * by lia.
      assert (Ha : (0 < 2 ^ (e + 52))%Z) by (apply Z.pow_pos_nonneg; lia).
      assert (HP : (0 < 2 ^ 1022)%Z) by (apply Z.pow_pos_nonneg; lia).
      change (2 ^ 1074)%Z with (2 ^ 52 * 2 ^ 1022)%Z in *.
      rewrite Z.mul_assoc in *.
      apply Z.mul_lt_mono_pos_r in Hk; [| exact HP].
      replace (2 ^ 52 * 2 ^ 1022 + 2 ^ 1022)%Z
        with ((2 ^ 52 + 1) * 2 ^ 1022)%Z by ring.
      apply Z.mul_le_mono_nonneg_r; lia.
    - exfalso.
      assert (Hp : (0 < 2 ^ (e + 1074) <= 2 ^ 1021)%Z).
      { split; [apply Z.pow_pos_nonneg; lia |].
        apply Z.pow_le_mono_r; lia. }
      assert (Hle : (m * 2 ^ (e + 1074) <= (2 ^ 53 - 1) * 2 ^ 1021)%Z).
      { destruct (Z_le_gt_dec 0 m) as [Hm0 | Hm0].
        - apply Z.mul_le_mono_nonneg; lia.
        - assert (m * 2 ^ (e + 1074) <= 0)%Z by (apply Z.mul_nonpos_nonneg; lia).
          assert (0 <= (2 ^ 53 - 1) * 2 ^ 1021)%Z by (apply Z.mul_nonneg_nonneg; lia).
          lia. }
      assert (Hc : ((2 ^ 53 - 1) * 2 ^ 1021 < 2 ^ 1074)%Z) by reflexivity.
      lia. }
  apply IZR_le in Hstep. rewrite plus_IZR in Hstep.
  apply Rmult_le_reg_r with (IZR (2 ^ 1074)); [exact Hs |].
  unfold Rdiv. rewrite Rmult_assoc, Rinv_l, Rmult_1_r by lra.
  replace ((1 + / IZR (2 ^ 52)) * IZR (2 ^ 1074))
    with (IZR (2 ^ 1074) + IZR (2 ^ 1022)); [exact Hstep |].
  change (2 ^ 1074)%Z with (2 ^ 52 * 2 ^ 1022)%Z. rewrite mult_IZR.
  assert (0 < IZR (2 ^ 52)) by (apply IZR_lt; reflexivity).
  field. lra.
Qed.

Lemma overflow_above_2 : 2 < overflow_threshold.
Proof. unfold overflow_threshold. apply IZR_lt. reflexivity. Qed.

(** Adding a float of at most 2^-54 to 1 gives 1. *)
Lemma add_one_tiny e : 0 <= e <= / IZR (2 ^ 54) -> add one (Fin e) = Fin 1.
Proof.
  intros [He0 He1]. unfold one. cbn [add].
  assert (H54 : 0 < IZR (2 ^ 54)) by (apply IZR_lt; reflexivity).
  assert (H52 : 0 < IZR (2 ^ 52)) by (apply IZR_lt; reflexivity).
  assert (Hrel : / IZR (2 ^ 52) = 4 * / IZR (2 ^ 54)).
  { change (2 ^ 54)%Z with (4 * 2 ^ 52)%Z. rewrite mult_IZR. field. lra. }
  assert (Hinv : 0 < / IZR (2 ^ 54)) by (apply Rinv_0_lt_compat, H54).
  assert (Hsmall : / IZR (2 ^ 54) < 1).
  { rewrite <- Rinv_1. apply Rinv_lt_contravar; [lra |].
    apply (IZR_lt 1). reflexivity. }
  pose proof overflow_above_2.
  rewrite rnd_Fin by lra. f_equal.
  pose proof (round_nearest_F64 (1 + e)) as Hf.
  pose proof (round_nearest_min (1 + e) 1 F64_1) as Hmin.
  pose proof (round_nearest_mono 1 (1 + e) ltac:(lra)) as Hge.
  rewrite (round_nearest_exact 1 F64_1) in Hge.
  destruct Hge as [Hgt | Heq]; [exfalso | symmetry; exact Heq].
  pose proof (F64_above_1_gap _ Hf Hgt) as Hgap.
  revert Hmin. unfold Rabs. repeat destruct (Rcase_abs _); lra.
Qed.

Lemma exp_neg_tiny z : 54 <= z -> 0 <= exp (- z) <= / IZR (2 ^ 54).
Proof.
  intros Hz. split; [apply Rlt_le, exp_pos |].
  rewrite exp_Ropp.
  assert (H54 : 0 < IZR (2 ^ 54)) by (apply IZR_lt; reflexivity).
  apply Rinv_le_contravar; [exact H54 |].
  replace (IZR (2 ^ 54)) with (2 ^ 54)
    by (rewrite (pow_IZR 2 54); reflexivity).
  pose proof (exp_ge_pow2 54) as Hp.
  replace (INR 54) with 54 in Hp by (rewrite INR_IZR_INZ; reflexivity).
  destruct Hz as [Hlt | <-]; [| exact Hp].
  pose proof (exp_increasing _ _ Hlt). lra.
Qed.

Lemma F64_2pow_m54 : F64 (/ IZR (2 ^ 54)).
Proof.
  exists 1%Z, (-54)%Z. split; [split; lia |].
  unfold binary64_value. change (1 * 2 ^ (-54 + 1074))%Z with (2 ^ 1020)%Z.
  change (2 ^ 1074)%Z with (2 ^ 1020 * 2 ^ 54)%Z. rewrite mult_IZR.
  assert (0 < IZR (2 ^ 54)) by (apply IZR_lt; reflexivity).
  assert (0 < IZR (2 ^ 1020)) by (apply IZR_lt; reflexivity).
  field. lra.
Qed.

Lemma sigmoid_saturates z deriv : 54 <= z -> sigmoid (Fin z) deriv = Fin 1.
Proof.
  intros Hz. unfold sigmoid. cbn [neg np_exp].
  destruct (rnd_between 0 (/ IZR (2 ^ 54)) (exp (- z))
              F64_0 F64_2pow_m54 (exp_neg_tiny z Hz)) as (e & -> & He).
  rewrite (add_one_tiny e He). unfold one. cbn [div].
  rewrite (sgn_pos 1) by lra.
  replace (1 / 1) with 1 by field. apply rnd_1.
Qed.

Lemma F64_half : F64 (1 / 2).
Proof.
  exists 1%Z, (-1)%Z. split; [split; lia |].
  unfold binary64_value. change (1 * 2 ^ (-1 + 1074))%Z with (2 ^ 1073)%Z.
  change (2 ^ 1074)%Z with (2 * 2 ^ 1073)%Z. rewrite mult_IZR.
  assert (0 < IZR (2 ^ 1073)) by (apply IZR_lt; reflexivity).
  field. lra.
Qed.

Example sigmoid_at_zero : sigmoid (Fin 0) false = Fin (1 / 2).
Proof.
  unfold sigmoid, one. cbn [neg np_exp].
  rewrite Ropp_0, exp_0, rnd_1. cbn [add].
  replace (1 + 1) with (IZR 2) by lra.
  rewrite (rnd_exact (IZR 2)) by (apply F64_Z; lia).
  cbn [div]. rewrite sgn_pos by lra.
  apply rnd_exact, F64_half.
Qed.

(** X1.  [sigmoid] is defined on every float: it never divides by zero
    and never returns an infinity.  At plus and minus infinity it reaches
    the bounds 1 and 0 themselves, on every other number it is a number
    between 0 and 1, and it returns nan on nan alone. *)
Theorem sigmoid_total_range (x : npfloat) (deriv : bool) :
  sigmoid PInf deriv = Fin 1
  /\ sigmoid NInf deriv = Fin 0
  /\ unit_or_nan (sigmoid x deriv)
  /\ (sigmoid x deriv = NaN <-> x = NaN).
Proof.
  split; [apply sigmoid_PInf |].
  split; [apply sigmoid_NInf |].
  split; [apply sigmoid_unit_or_nan |].
  destruct x as [r | | |].
  - destruct (sigmoid_Fin_range r deriv) as (y & -> & _).
    split; discriminate.
  - rewrite sigmoid_PInf. split; discriminate.
  - rewrite sigmoid_NInf. split; discriminate.
  - split; reflexivity.
Qed.

(** X2.  On an array, [sigmoid] keeps the shape (the number of rows and
    the length of each row), and every entry of the result is nan or lies
    between 0 and 1. *)
Theorem sigmoid_array_shape_range (x : list (list npfloat)) (deriv : bool) :
  length (sigmoid_array x deriv) = length x
  /\ map length (sigmoid_array x deriv) = map length x
  /\ Forall (Forall unit_or_nan) (sigmoid_array x deriv).
Proof.
  unfold sigmoid_array. split; [apply length_map |]. split.
  - rewrite <- list_fmap_compose. apply list_fmap_ext.
    intros _ row _. cbn. apply length_map.
  - apply Forall_fmap, Forall_true. intros row.
    change (Forall unit_or_nan (map (fun e => sigmoid e deriv) row)).
    apply Forall_fmap, Forall_true. intros e.
    exact (sigmoid_unit_or_nan e deriv).
Qed.

(** X3.  [sigmoid] preserves the order of the reals: a larger
    pre-activation never gives a smaller activation.  (It is not
    strictly increasing: the float arithmetic saturates.) *)
Theorem sigmoid_monotone (r1 r2 : R) (deriv : bool) :
  r1 <= r2 ->
  exists a1 a2,
    sigmoid (Fin r1) deriv = Fin a1
    /\ sigmoid (Fin r2) deriv = Fin a2
    /\ a1 <= a2.
Proof.
  intros Hr.
  destruct (sigmoid_Fin_range r1 deriv) as (a1 & Ha1 & Hb1).
  destruct (sigmoid_Fin_range r2 deriv) as (a2 & Ha2 & Hb2).
  exists a1, a2. split; [exact Ha1 |]. split; [exact Ha2 |].
  revert Ha1 Ha2. unfold sigmoid. cbn [neg np_exp].
  assert (Hexp : exp (- r2) <= exp (- r1)).
  { destruct Hr as [Hlt | ->]; [| lra]. apply Rlt_le, exp_increasing. lra. }
  pose proof (rnd_mono _ _ Hexp) as HE.
  pose proof (exp_pos (- r2)) as Hpos2.
  pose proof (rnd_ge 0 (exp (- r2)) F64_0 ltac:(lra)) as HE2.
  destruct (rnd (exp (- r1))) as [e1 | | |], (rnd (exp (- r2))) as [e2 | | |];
    cbn in HE, HE2; try contradiction.
  - (* both finite *)
    unfold one. cbn [add].
    pose proof (rnd_mono (1 + e2) (1 + e1) ltac:(lra)) as HD.
    pose proof (rnd_ge 1 (1 + e2) F64_1 ltac:(lra)) as HD2.
    destruct (rnd (1 + e1)) as [d1 | | |], (rnd (1 + e2)) as [d2 | | |];
      cbn in HD, HD2; try contradiction.
    + cbn [div]. rewrite !sgn_pos by lra.
      assert (Hq : 1 / d1 <= 1 / d2).
      { unfold Rdiv. rewrite !Rmult_1_l. apply Rinv_le_contravar; lra. }
      pose proof (rnd_mono _ _ Hq) as HQ.
      intros H1 H2. rewrite H1, H2 in HQ. exact HQ.
    + cbn [div]. intros [= <-] _. lra.
    + cbn [div]. intros [= <-] [= <-]. lra.
  - cbn [add div one]. intros [= <-] _. lra.
  - cbn [add div one]. intros [= <-] [= <-]. lra.
Qed.

Lemma sigmoid_monotone_witness :
  exists a1 a2,
    sigmoid (Fin 0) false = Fin a1
    /\ sigmoid (Fin 1) false = Fin a2
    /\ a1 <= a2.
Proof.
  apply (sigmoid_monotone 0 1 false). lra.
Defined.

(** X5.  For a target between 0 and 1 and a prediction that is a
    float, the loss is a finite number exactly when the prediction lies
    strictly between 0 and 1: a prediction of 0 or 1, or outside the
    unit interval, gives an infinity or nan. *)
Theorem binary_xentropy_finite_iff (t p : R) (deriv : bool) :
  F64 p ->
  0 <= t <= 1 ->
  finite (binary_xentropy (Fin t) (Fin p) deriv) <-> 0 < p < 1.
Proof.
  intros Hp Ht. split.
  - intros Hfin.
    destruct (Rle_dec p 0) as [Hle | Hpos];
      [exfalso; revert Hfin; apply binary_xentropy_outside; left; exact Hle |].
    destruct (Rle_dec 1 p) as [Hge | Hlt];
      [exfalso; revert Hfin; apply binary_xentropy_outside; right; exact Hge |].
    lra.
  - intros Hp01.
    destruct (binary_xentropy_range t p deriv Hp Hp01 Ht) as (y & -> & _).
    exact I.
Qed.

Lemma binary_xentropy_finite_iff_witness :
  finite (binary_xentropy (Fin 1) (Fin (1 / 2)) false) <-> 0 < 1 / 2 < 1.
Proof.
  apply (binary_xentropy_finite_iff 1 (1 / 2) false).
  - apply F64_half.
  - lra.
Defined.

(** X6.  For a target between 0 and 1 and a float prediction strictly
    between 0 and 1, the loss is a number that is not negative (it can
    be 0) and is at most 2148. *)
Theorem binary_xentropy_nonnegative (t p : R) (deriv : bool) :
  F64 p ->
  0 < p < 1 ->
  0 <= t <= 1 ->
  exists y, binary_xentropy (Fin t) (Fin p) deriv = Fin y /\ 0 <= y <= 2148.
Proof.
  intros Hp Hp01 Ht. apply binary_xentropy_range; assumption.
Qed.

Lemma binary_xentropy_nonnegative_witness :
  exists y,
    binary_xentropy (Fin 1) (Fin (1 / 2)) false = Fin y /\ 0 <= y <= 2148.
Proof.
  apply (binary_xentropy_nonnegative 1 (1 / 2) false).
  - apply F64_half.
  - lra.
  - lra.
Defined.

(** X7.  A prediction that equals its 0/1 target exactly does not give
    the loss 0: the product of 0 and the logarithm of 0 makes it nan. *)
Theorem binary_xentropy_perfect_prediction (t : R) (deriv : bool) :
  t = 0 \/ t = 1 ->
  binary_xentropy (Fin t) (Fin t) deriv = NaN.
Proof.
  intros [-> | ->].
  - apply binary_xentropy_0_0.
  - apply binary_xentropy_1_1.
Qed.

Lemma binary_xentropy_perfect_prediction_witness :
  binary_xentropy (Fin 1) (Fin 1) false = NaN.
Proof.
  apply (binary_xentropy_perfect_prediction 1 false). right. reflexivity.
Defined.

(** X8.  The loss of a sigmoid output is not always a number.  For a
    pre-activation of at most -1024 the exponential overflows, [sigmoid]
    returns exactly 0, and the loss is infinite for the target 1 and nan
    for the target 0; for a pre-activation of at least 54, [sigmoid]
    returns exactly 1, and the loss is nan for the target 1 and infinite
    for the target 0. *)
Theorem binary_xentropy_of_sigmoid (z : R) (d1 d2 : bool) :
  (z <= -1024 ->
   sigmoid (Fin z) d1 = Fin 0
   /\ binary_xentropy (Fin 1) (sigmoid (Fin z) d1) d2 = PInf
   /\ binary_xentropy (Fin 0) (sigmoid (Fin z) d1) d2 = NaN)
  /\ (54 <= z ->
      sigmoid (Fin z) d1 = Fin 1
      /\ binary_xentropy (Fin 1) (sigmoid (Fin z) d1) d2 = NaN
      /\ binary_xentropy (Fin 0) (sigmoid (Fin z) d1) d2 = PInf).
Proof.
  split; intros Hz.
  - rewrite (sigmoid_underflows z d1 Hz).
    split; [reflexivity |].
    split; [apply binary_xentropy_1_0 | apply binary_xentropy_0_0].
  - rewrite (sigmoid_saturates z d1 Hz).
    split; [reflexivity |].
    split; [apply binary_xentropy_1_1 | apply binary_xentropy_0_1].
Qed.

Lemma binary_xentropy_of_sigmoid_witness :
  (sigmoid (Fin (-2000)) false = Fin 0
   /\ binary_xentropy (Fin 1) (sigmoid (Fin (-2000)) false) false = PInf
   /\ binary_xentropy (Fin 0) (sigmoid (Fin (-2000)) false) false = NaN)
  /\ (sigmoid (Fin 100) false = Fin 1
      /\ binary_xentropy (Fin 1) (sigmoid (Fin 100) false) false = NaN
      /\ binary_xentropy (Fin 0) (sigmoid (Fin 100) false) false = PInf).
Proof.
  split.
  - apply (proj1 (binary_xentropy_of_sigmoid (-2000) false false)). lra.
  - apply (proj2 (binary_xentropy_of_sigmoid 100 false false)). lra.
Defined.

End KernelProperties.

(** ** Further properties of the notebook's functions *)

Section NotebookProperties.

Import Np Py.

Lemma with_console_nil s : with_console s [] = s.
Proof. destruct s as [g st out]. unfold with_console. cbn. by rewrite app_nil_r. Qed.

Lemma with_console_app s l1 l2 :
  with_console (with_console s l1) l2 = with_console s (l1 ++ l2).
Proof. unfold with_console. cbn. by rewrite app_assoc. Qed.

Lemma lookup_name_Some name v s :
  globals s !! name = Some v -> lookup_name name s = (Ok v, s).
Proof. intros H. unfold lookup_name. rewrite H. reflexivity. Qed.

Lemma generate_data_run s :
  generate_data s
  = (Ok (VTuple [VArray (length (store s)); VArray (S (length (store s)))]),
     State (globals s) (store s ++ [xor_bitpairs; xor_outputs]) (console s)).
Proof.
  unfold generate_data. rewrite bind_run. cbn [np_array globals store console].
  rewrite bind_run. cbn [np_array globals store console ret].
  rewrite length_app, Nat.add_1_r, <- app_assoc. reflexivity.
Qed.

(** *** [shuffle_and_batch] *)

(** X9.  When the batch size exceeds the length of [X], the call prints
    the message once and raises [AssertionError] with the argument [None]
    (the value of the [print] call, not the message); no array and no
    variable changes. *)
Theorem shuffle_and_batch_failure X Y batch_size s n :
  len_of (store s) X = Ok n ->
  (n < batch_size)%Z ->
  shuffle_and_batch X Y batch_size s
  = (Raise (AssertionError VNone),
     with_console s
       [[Lit "Batch size must be smaller than the dataset size"]]).
Proof.
  intros Hlen Hlt.
  rewrite (shuffle_and_batch_exceeds X Y batch_size s n Hlen Hlt).
  reflexivity.
Qed.

Lemma shuffle_and_batch_failure_witness :
  shuffle_and_batch (VArray 0) (VArray 1) 5 data_state
  = (Raise (AssertionError VNone),
     with_console data_state
       [[Lit "Batch size must be smaller than the dataset size"]]).
Proof.
  apply (shuffle_and_batch_failure (VArray 0) (VArray 1) 5 data_state 4).
  - reflexivity.
  - lia.
Defined.

(** X10.  Whatever its arguments, [shuffle_and_batch] shuffles and
    batches nothing: it changes no array and no variable, and when it
    returns, it returns [None]. *)
Theorem shuffle_and_batch_never_batches X Y batch_size s :
  store (shuffle_and_batch X Y batch_size s).2 = store s
  /\ globals (shuffle_and_batch X Y batch_size s).2 = globals s
  /\ ((shuffle_and_batch X Y batch_size s).1 = Ok VNone
      \/ exists e, (shuffle_and_batch X Y batch_size s).1 = Raise e).
Proof.
  unfold shuffle_and_batch. rewrite bind_run. unfold py_len.
  destruct (len_of (store s) X) as [n | e].
  - destruct (batch_size <=? n)%Z.
    + cbn. repeat split. left. reflexivity.
    + cbn. repeat split. right. eexists. reflexivity.
  - cbn. repeat split. right. eexists. reflexivity.
Qed.

(** X11.  On the data of [generate_data] a batch size is accepted exactly
    up to 4, the default of [train]: in every state, the call after
    [generate_data] returns [None] for a batch size of at most 4 and
    raises [AssertionError] for a larger one. *)
Theorem shuffle_and_batch_on_generated_data (batch_size : Z) (s : state) :
  ((dataset ← generate_data;
    '(X, Y) ← py_unpack2 dataset;
    shuffle_and_batch X Y batch_size) s).1
  = if (batch_size <=? 4)%Z then Ok VNone
    else Raise (AssertionError VNone).
Proof.
  rewrite (bind_run_Ok _ _ s _ _ (generate_data_run s)).
  set (s1 := State _ _ _).
  assert (Hlen : len_of (store s1) (VArray (length (store s))) = Ok 4%Z).
  { unfold s1. cbn [store len_of].
    rewrite lookup_app_r by apply Nat.le_refl.
    rewrite Nat.sub_diag. reflexivity. }
  rewrite bind_run.
  change (py_unpack2 (VTuple [VArray (length (store s));
                              VArray (S (length (store s)))]) s1)
    with (Ok (VArray (length (store s)), VArray (S (length (store s)))), s1).
  cbn iota beta.
  destruct (Z.leb_spec batch_size 4) as [Hle | Hgt].
  - rewrite (shuffle_and_batch_within _ _ batch_size s1 4 Hlen Hle).
    reflexivity.
  - rewrite (shuffle_and_batch_exceeds _ _ batch_size s1 4 Hlen Hgt).
    reflexivity.
Qed.

(** *** [train] *)

(** X12.  With fewer than ten epochs [train] cannot run: for one to nine
    epochs [epochs // 10] is 0 and the first epoch raises
    [ZeroDivisionError] before anything is printed; for no epoch at all
    the loop is empty and the empty list is returned.  This holds in every
    state, also once [epoch_loss] is bound. *)
Theorem train_short_run dataset weights biases epochs lr batch_size s :
  (epochs < 10)%Z ->
  train dataset weights biases epochs lr batch_size s
  = if (0 <? epochs)%Z then (Raise ZeroDivisionError, s)
    else (Ok (VList []), s).
Proof.
  intros Hlt. destruct (Z.ltb_spec 0 epochs) as [Hpos | Hnonpos].
  - apply train_few_epochs. lia.
  - apply train_no_epoch. exact Hnonpos.
Qed.

Lemma train_short_run_witness :
  train (VTuple [VArray 0; VArray 1]) (VList []) (VList []) 9
    default_lr default_batch_size data_state
  = (Raise ZeroDivisionError, data_state).
Proof.
  apply (train_short_run (VTuple [VArray 0; VArray 1]) (VList []) (VList [])
           9 default_lr default_batch_size data_state).
  lia.
Defined.

(** One epoch of the loop, where [epoch_loss] is bound to a number that
    the format prints. *)
Lemma train_epoch_reports epochs loss epoch s :
  (10 <= epochs)%Z ->
  globals s !! "epoch_loss" = Some loss ->
  prints_fixed loss ->
  (step ← py_floordiv epochs 10;
   r ← py_mod epoch step;
   if (r =? 0)%Z then
     h_epoch ← py_format (FmtInt 6) (VNum (Int epoch));
     epoch_loss ← lookup_name "epoch_loss";
     h_loss ← py_format (FmtFixed 6) epoch_loss;
     print [Lit "Running epoch "; h_epoch; Lit " - loss: "; h_loss];;
     ret tt
   else ret tt) s
  = (Ok tt,
     with_console s
       (if (epoch mod (epochs / 10) =? 0)%Z
        then [progress_line loss epoch] else [])).
Proof.
  intros Hge Hloss Hnum.
  unfold py_floordiv. change (10 =? 0)%Z with false. cbn iota.
  rewrite bind_ret_l. unfold py_mod.
  assert (Hq : (0 < epochs / 10)%Z) by (apply Z.div_str_pos; lia).
  assert (Hstep : (epochs / 10 =? 0)%Z = false) by (apply Z.eqb_neq; lia).
  rewrite Hstep, bind_ret_l.
  destruct (epoch mod (epochs / 10) =? 0)%Z.
  - cbn [py_format]. rewrite bind_ret_l.
    rewrite (bind_run_Ok _ _ s loss s (lookup_name_Some _ _ _ Hloss)).
    destruct loss as [| [n | x] | x | | | |]; try contradiction;
      cbn [py_format]; [cbn in Hnum; rewrite Hnum |..]; reflexivity.
  - rewrite with_console_nil. reflexivity.
Qed.

(** X13.  Once [epoch_loss] is bound to a number that the format
    [.06f] prints (a float, a numpy number, or an int that converts to a
    float), [train] with ten or more epochs runs to the end without
    computing anything: it prints one progress line for each epoch that
    is a multiple of [epochs // 10], each with that same value of
    [epoch_loss], changes no array and no variable, and returns the
    empty list. *)
Theorem train_only_reports dataset weights biases epochs lr batch_size loss s :
  (10 <= epochs)%Z ->
  globals s !! "epoch_loss" = Some loss ->
  prints_fixed loss ->
  train dataset weights biases epochs lr batch_size s
  = (Ok (VList []),
     with_console s (map (progress_line loss) (reported_epochs epochs))).
Proof.
  intros Hge Hloss Hnum. unfold train, reported_epochs, py_range.
  rewrite bind_run.
  generalize (seqZ 0 epochs) as epochs_left.
  assert (Hloop : forall (todo : list Z) s',
             globals s' = globals s ->
             for_each todo (fun epoch =>
               step ← py_floordiv epochs 10;
               r ← py_mod epoch step;
               if (r =? 0)%Z then
                 h_epoch ← py_format (FmtInt 6) (VNum (Int epoch));
                 epoch_loss ← lookup_name "epoch_loss";
                 h_loss ← py_format (FmtFixed 6) epoch_loss;
                 print [Lit "Running epoch "; h_epoch;
                        Lit " - loss: "; h_loss];;
                 ret tt
               else ret tt) s'
             = (Ok tt,
                with_console s'
                  (map (progress_line loss)
                     (List.filter
                        (fun epoch => (epoch mod (epochs / 10) =? 0)%Z)
                        todo)))).
  { induction todo as [| epoch rest IH]; intros s' Hg.
    - cbn. rewrite with_console_nil. reflexivity.
    - cbn [for_each]. rewrite bind_run.
      rewrite (train_epoch_reports epochs loss epoch s' Hge)
        by (rewrite ?Hg; assumption).
      rewrite IH by exact Hg.
      rewrite with_console_app. cbn [List.filter].
      destruct (epoch mod (epochs / 10) =? 0)%Z; reflexivity. }
  intros todo. rewrite Hloop by reflexivity. reflexivity.
Qed.

Lemma train_only_reports_witness :
  let s := State {[ "epoch_loss" := VNum (Int 0) ]} [] [] in
  train VNone VNone VNone 20 default_lr default_batch_size s
  = (Ok (VList []),
     with_console s (map (progress_line (VNum (Int 0))) (reported_epochs 20))).
Proof.
  cbn zeta.
  apply (train_only_reports VNone VNone VNone 20 default_lr default_batch_size
           (VNum (Int 0))).
  - lia.
  - vm_compute. reflexivity.
  - reflexivity.
Defined.

(** *** [print_shapes] *)

Lemma map_each_py_shape_state (items : list value) (s : state) :
  exists r, map_each items py_shape s = (r, s).
Proof.
  induction items as [| item rest IH]; cbn [map_each].
  - eexists. reflexivity.
  - rewrite bind_run. unfold py_shape at 1.
    destruct (shape_of (store s) item) as [shape | e]; [| eexists; reflexivity].
    rewrite bind_run. destruct IH as [[shapes | e] ->]; eexists; reflexivity.
Qed.

Lemma map_each_py_shape_arrays (locs : list loc) (arrays : list ndarray) s :
  Forall2 (fun l rows => store s !! l = Some rows) locs arrays ->
  map_each (map VArray locs) py_shape s = (Ok (map shape_tuple arrays), s).
Proof.
  induction 1 as [| l rows locs arrays Hl _ IH]; [reflexivity |].
  cbn [map map_each]. rewrite bind_run. unfold py_shape at 1.
  cbn [shape_of]. unfold ndarray in *. rewrite Hl.
  rewrite bind_run, IH. reflexivity.
Qed.

(** X14.  [print_shapes] prints one line or nothing: when it returns, it
    returns [None] and the console has exactly one more line; when it
    raises (an argument that cannot be iterated, an element without a
    shape), the state is as it was before the call.  No array and no
    variable changes in either case. *)
Theorem print_shapes_one_line_or_nothing (ls name : value) (s : state) :
  match print_shapes ls name s with
  | (Ok v, s') => v = VNone /\ exists line, s' = with_console s [line]
  | (Raise _, s') => s' = s
  end.
Proof.
  unfold print_shapes. cbn [py_format]. rewrite bind_ret_l, bind_run.
  unfold py_iter.
  destruct (items_of (store s) ls) as [items | e]; [| reflexivity].
  rewrite bind_run.
  destruct (map_each_py_shape_state items s) as [[shapes | e] ->];
    [| reflexivity].
  cbn. split; [reflexivity |]. eexists. reflexivity.
Qed.

(** X15.  On a list or tuple of arrays, each with at least one row,
    [print_shapes] prints the name and the list of the shapes (rows,
    columns) of the arrays, in order, and returns [None]. *)
Theorem print_shapes_of_arrays (ls name : value) (locs : list loc)
    (arrays : list ndarray) (s : state) :
  items_of (store s) ls = Ok (map VArray locs) ->
  Forall2 (fun l rows => store s !! l = Some rows) locs arrays ->
  Forall is_matrix arrays ->
  print_shapes ls name s
  = (Ok VNone,
     with_console s [shapes_line name (map shape_tuple arrays)]).
Proof.
  intros Hitems Harrays _.
  unfold print_shapes. cbn [py_format]. rewrite bind_ret_l, bind_run.
  unfold py_iter. rewrite Hitems.
  rewrite bind_run, (map_each_py_shape_arrays locs arrays s Harrays).
  reflexivity.
Qed.

(** The shapes of the data set: four rows of two bits, four of one label. *)
Lemma print_shapes_of_arrays_witness :
  print_shapes (VTuple [VArray 0; VArray 1]) (VNone) data_state
  = (Ok VNone,
     with_console data_state
       [shapes_line VNone
          [VTuple [VNum (Int 4); VNum (Int 2)];
           VTuple [VNum (Int 4); VNum (Int 1)]]]).
Proof.
  apply (print_shapes_of_arrays (VTuple [VArray 0; VArray 1]) VNone
           [0; 1]%nat [xor_bitpairs; xor_outputs] data_state).
  - reflexivity.
  - repeat constructor.
  - repeat constructor; discriminate.
Defined.

(** *** [predict] *)

Lemma nth_item_last {A} (xs : list A) (x : A) :
  nth_item (xs ++ [x]) (-1) = Ok x.
Proof.
  unfold nth_item. change (-1 <? 0)%Z with true. cbn iota.
  rewrite length_app. cbn [length].
  replace (-1 + Z.of_nat (length xs + 1))%Z with (Z.of_nat (length xs))
    by lia.
  assert (Hnn : (Z.of_nat (length xs) <? 0)%Z = false)
    by (apply Z.ltb_ge; lia).
  rewrite Hnn, Nat2Z.id.
  rewrite lookup_app_r by apply Nat.le_refl.
  rewrite Nat.sub_diag. reflexivity.
Qed.

(** The loop of [predict] over rows of two inputs and of one output. *)
Lemma predict_loop (xs : list (num * num)) (ps : list num) (s : state) :
  for_each
    (zip (map VRow (map (fun x => [x.1; x.2]) xs))
         (map VRow (map (fun p => [p]) ps)))
    (fun '(x, pred) =>
       x0 ← py_getitem x 0;
       h0 ← py_format FmtStr x0;
       x1 ← py_getitem x 1;
       h1 ← py_format FmtStr x1;
       p0 ← py_getitem pred 0;
       h2 ← py_format (FmtFixed 14) p0;
       print [h0; Lit " "; h1; Lit " | "; h2];;
       ret tt) s
  = (Ok tt,
     with_console s
       (map (fun xp => prediction_line xp.1.1 xp.1.2 xp.2) (zip xs ps))).
Proof.
  revert ps s. induction xs as [| [a b] xs IH]; intros ps s.
  - cbn. rewrite with_console_nil. reflexivity.
  - destruct ps as [| p ps].
    + cbn. rewrite with_console_nil. reflexivity.
    + cbn [map zip zip_with for_each fst snd]. rewrite bind_run.
      change ((x0 ← py_getitem (VRow [a; b]) 0;
               h0 ← py_format FmtStr x0;
               x1 ← py_getitem (VRow [a; b]) 1;
               h1 ← py_format FmtStr x1;
               p0 ← py_getitem (VRow [p]) 0;
               h2 ← py_format (FmtFixed 14) p0;
               print [h0; Lit " "; h1; Lit " | "; h2];;
               ret tt) s)
        with (Ok tt, with_console s [prediction_line a b p]).
      cbn iota beta. rewrite IH, with_console_app. reflexivity.
Qed.

(** X16.  Once the names that [feedforward] returns are bound, [predict]
    prints the two heading lines and then one line per row with the two
    inputs and the first entry of the matching row of the last
    activation; it stops at the shorter of the two arrays, changes no
    array and returns [None].  The weights and biases it is given have no
    influence on what it prints. *)
Theorem predict_prints_table (lx lp : loc) (Y weights biases : value)
    (zs d_activations : value) (hidden : list value)
    (xs : list (num * num)) (ps : list num) (s : state) :
  globals s !! "zs" = Some zs ->
  globals s !! "activations" = Some (VList (hidden ++ [VArray lp])) ->
  globals s !! "d_activations" = Some d_activations ->
  store s !! lx = Some (map (fun x => [x.1; x.2]) xs) ->
  store s !! lp = Some (map (fun p => [p]) ps) ->
  predict (VTuple [VArray lx; Y]) weights biases s
  = (Ok VNone,
     with_console s
       (prediction_heading
        ++ map (fun xp => prediction_line xp.1.1 xp.1.2 xp.2) (zip xs ps))).
Proof.
  intros Hzs Hact Hdact Hx Hp. unfold predict.
  rewrite bind_run.
  change (py_unpack2 (VTuple [VArray lx; Y]) s) with (Ok (VArray lx, Y), s).
  cbn iota beta.
  assert (Hff : feedforward (VArray lx) weights biases s
                = (Ok (VTuple [zs; VList (hidden ++ [VArray lp]);
                               d_activations]), s)).
  { unfold feedforward.
    rewrite (bind_run_Ok _ _ s _ s (lookup_name_Some _ _ _ Hzs)).
    rewrite (bind_run_Ok _ _ s _ s (lookup_name_Some _ _ _ Hact)).
    rewrite (bind_run_Ok _ _ s _ s (lookup_name_Some _ _ _ Hdact)).
    reflexivity. }
  rewrite (bind_run_Ok _ _ s _ s Hff).
  rewrite bind_run.
  change (py_unpack3 (VTuple [zs; VList (hidden ++ [VArray lp]);
                              d_activations]) s)
    with (Ok (zs, VList (hidden ++ [VArray lp]), d_activations), s).
  cbn iota beta.
  do 2 (rewrite bind_run; cbn [print]; cbn iota beta).
  rewrite bind_run. unfold py_getitem at 1. cbn [getitem_of].
  rewrite nth_item_last. cbn iota beta.
  rewrite bind_run. unfold py_iter at 1. cbn [items_of store].
  rewrite Hx. cbn iota beta.
  rewrite bind_run. unfold py_iter at 1. cbn [items_of store].
  rewrite Hp. cbn iota beta.
  rewrite bind_run, predict_loop. cbn iota beta.
  unfold with_console, prediction_heading. cbn.
  rewrite <- !app_assoc. reflexivity.
Qed.

(** A notebook whose last activation is the label array itself. *)
Lemma predict_prints_table_witness :
  let s := State {[ "zs" := VNone;
                    "activations" := VList [VArray 1];
                    "d_activations" := VNone ]}
             [xor_bitpairs; xor_outputs] [] in
  predict (VTuple [VArray 0; VArray 1]) VNone VNone s
  = (Ok VNone,
     with_console s
       (prediction_heading
        ++ [prediction_line (Int 1) (Int 0) (Int 1);
            prediction_line (Int 0) (Int 1) (Int 1);
            prediction_line (Int 0) (Int 0) (Int 0);
            prediction_line (Int 1) (Int 1) (Int 0)])).
Proof.
  cbn zeta.
  apply (predict_prints_table 0 1 (VArray 1) VNone VNone VNone VNone []
           [(Int 1, Int 0); (Int 0, Int 1); (Int 0, Int 0); (Int 1, Int 1)]
           [Int 1; Int 1; Int 0; Int 0]).
  - vm_compute. reflexivity.
  - vm_compute. reflexivity.
  - vm_compute. reflexivity.
  - reflexivity.
  - reflexivity.
Defined.

(** X17.  [predict] prints nothing before [feedforward] has returned.
    Where [zs] is unbound, as in the shipped notebook, a call on a data
    set of two parts raises [NameError] for [zs], whatever the inputs,
    the labels, the weights and the biases; a data set that does not
    unpack into two parts fails at the unpacking.  In each case the state
    is left as it was. *)
Theorem predict_fails_silently (dataset weights biases : value) (s : state) :
  globals s !! "zs" = None ->
  predict dataset weights biases s
  = (Raise
       match items_of (store s) dataset with
       | Ok [_; _] => NameError "zs"
       | Ok _ => ValueError
       | Raise e => e
       end,
     s).
Proof.
  intros Hzs. unfold predict. rewrite bind_run.
  unfold py_unpack2. rewrite bind_run. unfold py_iter.
  destruct (items_of (store s) dataset) as [items | e]; [| reflexivity].
  destruct items as [| X [| Y [| Z rest]]]; try reflexivity.
  cbn iota beta. change (ret (X, Y) s) with (Ok (X, Y), s). cbn iota beta.
  rewrite bind_run. unfold feedforward. rewrite bind_run.
  unfold lookup_name at 1. rewrite Hzs. reflexivity.
Qed.

(** The data of [generate_data], in a notebook that binds no name. *)
Lemma predict_fails_silently_witness :
  predict (VTuple [VArray 0; VArray 1]) (VList []) (VList []) data_state
  = (Raise (NameError "zs"), data_state).
Proof.
  apply (predict_fails_silently
           (VTuple [VArray 0; VArray 1]) (VList []) (VList []) data_state).
  vm_compute. reflexivity.
Defined.

(** *** [generate_data] *)

(** X18.  Two calls of [generate_data] share nothing: the second call
    returns two new arrays, different from the two of the first call, and
    the arrays of the first call still hold the table afterwards. *)
Theorem generate_data_twice_no_sharing (s : state) :
  exists x1 y1 x2 y2 s',
    (d1 ← generate_data; d2 ← generate_data; ret (d1, d2)) s
    = (Ok (VTuple [VArray x1; VArray y1], VTuple [VArray x2; VArray y2]), s')
    /\ NoDup [x1; y1; x2; y2]
    /\ store s' !! x1 = Some xor_bitpairs
    /\ store s' !! y1 = Some xor_outputs
    /\ store s' !! x2 = Some xor_bitpairs
    /\ store s' !! y2 = Some xor_outputs
    /\ (forall l a, store s !! l = Some a -> store s' !! l = Some a).
Proof.
  set (n := length (store s)).
  exists n, (S n), (S (S n)), (S (S (S n))).
  eexists. split.
  - rewrite (bind_run_Ok _ _ s _ _ (generate_data_run s)).
    rewrite (bind_run_Ok _ _ _ _ _ (generate_data_run _)).
    cbn [store globals console ret].
    rewrite length_app. cbn [length].
    replace (length (store s) + 2)%nat with (S (S n)) by (unfold n; lia).
    reflexivity.
  - cbn [store]. rewrite <- app_assoc. cbn [app].
    split; [| repeat split].
    + repeat (constructor; [rewrite ?elem_of_cons, elem_of_nil; lia |]).
      constructor.
    + rewrite lookup_app_r by (unfold n; lia).
      replace (n - length (store s))%nat with 0%nat by (unfold n; lia).
      reflexivity.
    + rewrite lookup_app_r by (unfold n; lia).
      replace (S n - length (store s))%nat with 1%nat by (unfold n; lia).
      reflexivity.
    + rewrite lookup_app_r by (unfold n; lia).
      replace (S (S n) - length (store s))%nat with 2%nat by (unfold n; lia).
      reflexivity.
    + rewrite lookup_app_r by (unfold n; lia).
      replace (S (S (S n)) - length (store s))%nat with 3%nat
        by (unfold n; lia).
      reflexivity.
    + intros l a Hl. apply lookup_app_l_Some. exact Hl.
Qed.

End NotebookProperties.
